(** * Clan-war tracker: the war record store and the leaderboard aggregator

    A shallow embedding of [fetch_wars.py].  The workbook [clash_wars.xlsx]
    is a state value threaded through the functions that read and write it;
    a Python [dict] keyed by player tag is a [gmap]; a pandas data frame is
    the list of its rows; a [try]/[except] block is a function that takes
    the outcome of the guarded read (it raised, or it returned) and yields
    what the handler yields. *)

From Stdlib Require Import ZArith QArith Ascii String.
From stdpp Require Import base option list gmap strings sorting pretty.

Local Open Scope string_scope.
Local Open Scope list_scope.
Local Open Scope Z_scope.

(** ** The war snapshot returned by the API

    A JSON object is a record with one optional field per key the tracker
    reads: [None] is an absent key, so that [war.get(k, d)] is
    [default d (k war)]. *)

Record attack := {
  a_stars : option Z;
  a_destructionPercentage : option Q
}.

Record member := {
  m_tag : option string;
  m_name : option string;
  m_townhallLevel : option Z;
  m_mapPosition : option Z;
  m_attacks : option (list attack)
}.

Record side := {
  s_name : option string;
  s_stars : option Z;
  s_destructionPercentage : option Q;
  s_members : option (list member)
}.

Record league := {
  l_id : option Z;
  l_name : option string
}.

Record war := {
  state : option string;
  preparationStartTime : option string;
  endTime : option string;
  teamSize : option Z;
  warLeague : option league;
  clan : option side;
  opponent : option side
}.

(** Truth value of a dict: it has at least one key. *)
Definition league_truthy (l : league) : bool :=
  bool_decide (is_Some (l_id l)) || bool_decide (is_Some (l_name l)).

Definition war_truthy (w : war) : bool :=
  bool_decide (is_Some (state w)) || bool_decide (is_Some (preparationStartTime w))
  || bool_decide (is_Some (endTime w)) || bool_decide (is_Some (teamSize w))
  || bool_decide (is_Some (warLeague w)) || bool_decide (is_Some (clan w))
  || bool_decide (is_Some (opponent w)).

(** ** Cells and rows of a war sheet

    Every war sheet is written by [save_war_to_excel] from the dicts that
    [process_war] builds, so a row is a record of those fifteen columns.
    The column [Is Loot Hit] is edited by hand in the workbook: its cell is
    whatever was typed there. *)

Inductive cell :=
  | CStr (s : string)
  | CBool (b : bool)
  | CNum (n : Z)
  | CBlank.

Global Instance cell_eq_dec : EqDecision cell.
Proof. solve_decision. Defined.

Record row := {
  War_ID : string;
  War_State : string;
  War_Complete : string;
  War_End_Time : string;
  Team_Size : Z;
  Player_Name : string;
  Player_Tag : string;
  Town_Hall : Z;
  Map_Position : Z;
  Attack_Number : Z;
  Stars : Z;
  Destruction : Q;
  Is_Triple : string;
  Is_Missed : string;
  Is_Loot_Hit : cell
}.

Definition yes_no (b : bool) : string := if b then "Yes" else "No".

(** ** Identifiers and classification *)

Definition replace_char (old new : ascii) (s : string) : string :=
  string_of_list_ascii
    (map (fun c => if Ascii.eqb c old then new else c) (list_ascii_of_string s)).

(** [now_str] is [str(datetime.now().timestamp())] at the call. *)
Definition get_war_id (now_str : string) (w : war) : string :=
  let prep_time := default "" (preparationStartTime w) in
  let prep_time :=
    if String.eqb prep_time "" then default now_str (endTime w) else prep_time in
  replace_char "." "-" (replace_char ":" "-" prep_time).

Definition is_war_ended (w : war) : bool :=
  bool_decide (state w = Some "warEnded").

Definition is_cwl_war (w : war) : bool :=
  match warLeague w with
  | Some l => if league_truthy l then bool_decide (l_name l ≠ Some "Unranked") else false
  | None => false
  end.

(** The sheet of a war is named by the first 31 characters of its
    identifier: [war_id[:31]]. *)
Definition sheet_name_of (war_id : string) : string := substring 0 31 war_id.

(** ** The normalizer: [process_war] *)

Record war_data := {
  wd_war_id : string;
  wd_war_details : list row;
  wd_is_ended : bool
}.

Definition attack_is_loot (existing_loot : gmap string (list Z))
    (player_tag : string) (attack_idx : Z) : bool :=
  match existing_loot !! player_tag with
  | Some nums => bool_decide (attack_idx ∈ nums)
  | None => false
  end.

Section process_war.
Context (w : war) (war_id : string) (existing_loot : gmap string (list Z)).

Definition attack_row (m : member) (attack_idx : Z) (a : attack) : row :=
  let player_tag := default "" (m_tag m) in
  let stars := default 0 (a_stars a) in
  let destruction := default (0 : Q) (a_destructionPercentage a) in
  let is_missed := (stars =? 0)%Z && Qeq_bool destruction 0 in
  let is_loot := attack_is_loot existing_loot player_tag attack_idx in
  {| War_ID := war_id;
     War_State := default "unknown" (state w);
     War_Complete := yes_no (is_war_ended w);
     War_End_Time := default "N/A" (endTime w);
     Team_Size := default 0 (teamSize w);
     Player_Name := default "" (m_name m);
     Player_Tag := player_tag;
     Town_Hall := default 0 (m_townhallLevel m);
     Map_Position := default 0 (m_mapPosition m);
     Attack_Number := attack_idx;
     Stars := stars;
     Destruction := destruction;
     Is_Triple := yes_no (stars =? 3)%Z;
     Is_Missed := yes_no is_missed;
     Is_Loot_Hit := CStr (yes_no is_loot) |}.

Definition sentinel_row (m : member) : row :=
  {| War_ID := war_id;
     War_State := default "unknown" (state w);
     War_Complete := yes_no (is_war_ended w);
     War_End_Time := default "N/A" (endTime w);
     Team_Size := default 0 (teamSize w);
     Player_Name := default "" (m_name m);
     Player_Tag := default "" (m_tag m);
     Town_Hall := default 0 (m_townhallLevel m);
     Map_Position := default 0 (m_mapPosition m);
     Attack_Number := 0;
     Stars := 0;
     Destruction := 0;
     Is_Triple := "No";
     Is_Missed := "Yes";
     Is_Loot_Hit := CStr "No" |}.

(** The body of [for member in members]: one row per attack, numbered
    from 1 by [enumerate(attacks, 1)], then the sentinel when the member
    has no attack. *)
Definition member_rows (m : member) : list row :=
  let attacks := default [] (m_attacks m) in
  imap (fun i a => attack_row m (Z.of_nat i + 1) a) attacks
  ++ (match attacks with [] => [sentinel_row m] | _ :: _ => [] end).
End process_war.

(** ** The workbook

    [ROSTER] and [MISSED_HITS] are the two derived sheets; every other
    sheet holds one war and is named by [sheet_name_of] of the war's
    identifier, a timestamp, which is neither of the two fixed names.  The
    war sheets are kept in workbook order, and a sheet holds the rows
    that were written; the loot read-back and the aggregator, which key
    on text cells, test with [is_na] what [pd.read_excel] makes of them.
    A [store] of [None] is a workbook file that does not exist. *)

Record roster_entry := {
  ro_Player_Tag : string;
  ro_Player_Name : string;
  ro_Last_Seen_TH : Z;
  ro_Total_Wars : Z;
  ro_Wars_Participated : Z
}.

Record missed_entry := {
  mi_War_ID : string;
  mi_War_End_Time : string;
  mi_Player_Name : string;
  mi_Player_Tag : string;
  mi_Town_Hall : Z;
  mi_Attack_Number : Z;
  mi_Stars : Z;
  mi_Destruction : Q
}.

Record workbook := {
  roster_sheet : option (list roster_entry);
  missed_hits_sheet : option (list missed_entry);
  war_sheets : list (string * list row)
}.

Definition store := option workbook.

(** [Workbook()] with its default sheet deleted. *)
Definition new_workbook : workbook :=
  {| roster_sheet := None; missed_hits_sheet := None; war_sheets := [] |}.

Fixpoint find_sheet (name : string) (sheets : list (string * list row))
    : option (list row) :=
  match sheets with
  | [] => None
  | (n, df) :: rest => if String.eqb n name then Some df else find_sheet name rest
  end.

(** [del book[name]] *)
Definition del_sheet (name : string) (sheets : list (string * list row))
    : list (string * list row) :=
  filter (fun s => fst s ≠ name) sheets.

(** What the environment decides during one run: the clock reading used
    by [get_war_id] when the snapshot carries no timestamp, and which of
    the reads wrapped in [try] raise. *)
Record io := {
  now_str : string;
  loot_read_raises : bool;
  saved_read_raises : bool;
  sheet_read_raises : string -> bool
}.

(** ** Existence and completeness check *)

Definition war_already_saved (raises : bool) (st : store) (war_id : string)
    : bool * bool :=
  match st with
  | None => (false, false)
  | Some book =>
      if raises then (false, false)
      else
        match find_sheet (sheet_name_of war_id) (war_sheets book) with
        | Some df =>
            (true,
             match df with
             | r :: _ => bool_decide (War_Complete r = "Yes")
             | [] => false
             end)
        | None => (false, false)
        end
  end.

(** ** Reading a sheet back

    [pd.read_excel] hands a text cell back as the string that was
    written, except for the strings of its default [na_values], the empty
    string among them: such a cell is read as [NaN], which is equal to no
    string. *)
Definition na_values : list string :=
  [""; "#N/A"; "#N/A N/A"; "#NA"; "-1.#IND"; "-1.#QNAN"; "-NaN"; "-nan";
   "1.#IND"; "1.#QNAN"; "<NA>"; "N/A"; "NA"; "NULL"; "NaN"; "None"; "n/a";
   "nan"; "null"].

Definition is_na (s : string) : bool := bool_decide (s ∈ na_values).

(** ** Reading the loot-hit marks back *)

(** [row['Is Loot Hit'] in ['TRUE', True, 'Yes', 'yes', 1]]: membership
    compares with [==], under which [True] and [1] are equal. *)
Definition is_loot_mark (c : cell) : bool :=
  match c with
  | CStr s => bool_decide (s = "TRUE" ∨ s = "Yes" ∨ s = "yes")
  | CBool b => b
  | CNum n => bool_decide (n = 1)
  | CBlank => false
  end.

(** A marked row whose tag cell is read as [NaN] files its attack number
    under the key [NaN]; no tag string is equal to that key, so the dict,
    which is looked up by the members' tags only, is as before. *)
Definition loot_visit (loot_hits : gmap string (list Z)) (r : row)
    : gmap string (list Z) :=
  if is_loot_mark (Is_Loot_Hit r)
  then
    if is_na (Player_Tag r) then loot_hits
    else <[Player_Tag r := default [] (loot_hits !! Player_Tag r) ++ [Attack_Number r]]>
           loot_hits
  else loot_hits.

(** [pd.read_excel] raises when the workbook has no sheet of that name;
    the handler returns the empty dict for every exception. *)
Definition get_existing_loot_hits (raises : bool) (st : store) (war_id : string)
    : gmap string (list Z) :=
  match st with
  | None => ∅
  | Some book =>
      if raises then ∅
      else
        match find_sheet (sheet_name_of war_id) (war_sheets book) with
        | Some df => foldl loot_visit ∅ df
        | None => ∅
        end
  end.

(** ** [process_war] *)

Definition members_of (w : war) : list member :=
  match clan w with
  | Some c => default [] (s_members c)
  | None => []
  end.

Definition process_war (o : io) (st : store) (w : war)
    (preserve_loot_markings : bool) : option war_data :=
  if war_truthy w then
    let war_id := get_war_id (now_str o) w in
    let existing_loot :=
      if preserve_loot_markings
      then get_existing_loot_hits (loot_read_raises o) st war_id
      else ∅ in
    Some {| wd_war_id := war_id;
            wd_war_details := members_of w ≫= member_rows w war_id existing_loot;
            wd_is_ended := is_war_ended w |}
  else None.

(** ** Replace-on-upsert: [save_war_to_excel]

    The new sheet is stored under the name that is asked for, as
    [create_sheet] does for the timestamps that name the war sheets
    ([stamp_name] below). *)

Definition save_war_to_excel (st : store) (wd : war_data) : store * bool :=
  match wd_war_details wd with
  | [] => (st, false)
  | _ :: _ =>
      let book := default new_workbook st in
      let sheet_name := sheet_name_of (wd_war_id wd) in
      (Some {| roster_sheet := roster_sheet book;
               missed_hits_sheet := missed_hits_sheet book;
               war_sheets := del_sheet sheet_name (war_sheets book)
                             ++ [(sheet_name, wd_war_details wd)] |},
       true)
  end.

(** ** A stable sort, as [sort_values] on several columns *)

Section sort_values.
Context {A : Type} (le : A -> A -> bool).

Fixpoint sort_insert (x : A) (l : list A) : list A :=
  match l with
  | [] => [x]
  | y :: l' => if le x y then x :: l else y :: sort_insert x l'
  end.

Definition sort_values (l : list A) : list A := foldr sort_insert [] l.
End sort_values.

(** ** The missed-hits view *)

Definition missed_projection (r : row) : missed_entry :=
  {| mi_War_ID := War_ID r;
     mi_War_End_Time := War_End_Time r;
     mi_Player_Name := Player_Name r;
     mi_Player_Tag := Player_Tag r;
     mi_Town_Hall := Town_Hall r;
     mi_Attack_Number := Attack_Number r;
     mi_Stars := Stars r;
     mi_Destruction := Destruction r |}.

(** The rows that one sheet contributes to a scan of the complete wars:
    none when the read raises, when the frame is empty ([iloc[0]] raises)
    or when the first row is not marked complete. *)
Definition complete_rows (o : io) (s : string * list row) : list row :=
  if sheet_read_raises o (fst s) then []
  else
    match snd s with
    | r :: _ => if bool_decide (War_Complete r = "Yes") then snd s else []
    | [] => []
    end.

(** [War End Time] descending, then [Player Name] ascending. *)
Definition missed_le (a b : missed_entry) : bool :=
  match String.compare (mi_War_End_Time a) (mi_War_End_Time b) with
  | Gt => true
  | Lt => false
  | Eq => String.leb (mi_Player_Name a) (mi_Player_Name b)
  end.

Definition all_missed (o : io) (book : workbook) : list missed_entry :=
  war_sheets book ≫= fun s =>
    missed_projection <$> filter (fun r => Is_Missed r = "Yes") (complete_rows o s).

Definition update_missed_hits_sheet (o : io) (st : store) : store :=
  match st with
  | None => None
  | Some book =>
      match all_missed o book with
      | [] => st
      | missed =>
          Some {| roster_sheet := roster_sheet book;
                  missed_hits_sheet := Some (sort_values missed_le missed);
                  war_sheets := war_sheets book |}
      end
  end.

(** ** The roster view *)

(** [drop_duplicates]: the first occurrence of each value is kept. *)
Fixpoint drop_duplicates {A} `{EqDecision A} (l : list A) : list A :=
  match l with
  | [] => []
  | x :: l' => x :: filter (fun y => y ≠ x) (drop_duplicates l')
  end.

Definition roster_visit (all_players : gmap string roster_entry) (r : row)
    : gmap string roster_entry :=
  let player_tag := Player_Tag r in
  let all_players :=
    match all_players !! player_tag with
    | Some _ => all_players
    | None =>
        <[player_tag := {| ro_Player_Tag := player_tag;
                           ro_Player_Name := Player_Name r;
                           ro_Last_Seen_TH := Town_Hall r;
                           ro_Total_Wars := 0;
                           ro_Wars_Participated := 0 |}]> all_players
    end in
  let all_players :=
    if (0 <? Attack_Number r)%Z
    then alter (fun e => {| ro_Player_Tag := ro_Player_Tag e;
                            ro_Player_Name := ro_Player_Name e;
                            ro_Last_Seen_TH := ro_Last_Seen_TH e;
                            ro_Total_Wars := ro_Total_Wars e;
                            ro_Wars_Participated := ro_Wars_Participated e + 1 |})
               player_tag all_players
    else all_players in
  let current_th := Town_Hall r in
  alter (fun e => if (ro_Last_Seen_TH e <? current_th)%Z
                  then {| ro_Player_Tag := ro_Player_Tag e;
                          ro_Player_Name := ro_Player_Name e;
                          ro_Last_Seen_TH := current_th;
                          ro_Total_Wars := ro_Total_Wars e;
                          ro_Wars_Participated := ro_Wars_Participated e |}
                  else e)
        player_tag all_players.

(** One sheet of the scan; a read that raises leaves the dict as it is. *)
Definition roster_scan_sheet (o : io) (all_players : gmap string roster_entry)
    (s : string * list row) : gmap string roster_entry :=
  if sheet_read_raises o (fst s) then all_players
  else foldl roster_visit all_players (snd s).

Definition roster_scan (o : io) (book : workbook) : gmap string roster_entry :=
  foldl (roster_scan_sheet o) ∅ (war_sheets book).

Definition set_total_wars (total_wars : Z) (e : roster_entry) : roster_entry :=
  {| ro_Player_Tag := ro_Player_Tag e;
     ro_Player_Name := ro_Player_Name e;
     ro_Last_Seen_TH := ro_Last_Seen_TH e;
     ro_Total_Wars := total_wars;
     ro_Wars_Participated := ro_Wars_Participated e |}.

Definition roster_le (a b : roster_entry) : bool :=
  String.leb (ro_Player_Name a) (ro_Player_Name b).

(** The rows the roster scan visits: those of the war sheets that read,
    in workbook order. *)
Definition readable_rows (o : io) (book : workbook) : list row :=
  war_sheets book ≫= fun s => if sheet_read_raises o (fst s) then [] else snd s.

(** [all_players.values()]: a dict lists its entries in the order in
    which their keys were first set, which is the order in which the scan
    first sees the tags. *)
Definition roster_values (o : io) (book : workbook) : list roster_entry :=
  omap (fun tag => roster_scan o book !! tag)
       (drop_duplicates (Player_Tag <$> readable_rows o book)).

(** The rebuilt roster, sorted by [Player Name]; entries of one name stay
    in the order of [roster_values]. *)
Definition roster_view (o : io) (book : workbook) : list roster_entry :=
  let total_wars := Z.of_nat (length (war_sheets book)) in
  sort_values roster_le (set_total_wars total_wars <$> roster_values o book).

(** [None] is the uncaught [KeyError] of [sort_values('Player Name')] on
    the frame without columns that an empty [all_players] makes. *)
Definition update_roster_sheet (o : io) (st : store) : option store :=
  match st with
  | None => Some None
  | Some book =>
      match roster_view o book with
      | [] => None
      | view =>
          Some (Some {| roster_sheet := Some view;
                        missed_hits_sheet := missed_hits_sheet book;
                        war_sheets := war_sheets book |})
      end
  end.

(** ** The leaderboard aggregator *)

(** The group key [['Player Name', 'Player Tag']]. *)
Definition key := (string * string)%type.

Definition row_key (r : row) : key := (Player_Name r, Player_Tag r).

Definition key_le (a b : key) : bool :=
  match String.compare (fst a) (fst b) with
  | Lt => true
  | Gt => false
  | Eq => String.leb (snd a) (snd b)
  end.

(** [nunique]: the number of distinct values, missing values left out. *)
Definition nunique (l : list string) : Z :=
  Z.of_nat (length (drop_duplicates (filter (fun s => is_na s = false) l))).

(** A key with a cell that is read back as a missing value. *)
Definition na_key (k : key) : bool := is_na (fst k) || is_na (snd k).

(** [groupby], with its default [dropna=True]: one group per key without
    a missing value, in ascending key order, each group with its rows in
    frame order; a row with a missing value in a key column is in no
    group. *)
Definition groupby {A} (key_of : A -> key) (df : list A) : list (key * list A) :=
  (fun k => (k, filter (fun r => key_of r = k) df))
    <$> sort_values key_le
          (drop_duplicates (filter (fun k => na_key k = false) (key_of <$> df))).

(** The value a grouped frame holds for a key, as a left merge reads it:
    [None] is the [NaN] of a key without a match. *)
Fixpoint assoc {V} (k : key) (l : list (key * V)) : option V :=
  match l with
  | [] => None
  | (k', v) :: l' => if decide (k' = k) then Some v else assoc k l'
  end.

(** *** Step 1: the complete wars inside the window *)

(** What the platform decides for the aggregator: the clock, the parsing
    of timestamps, and the double-precision arithmetic of the two derived
    columns.  [percent_tenths a b] is [a / b * 100] as the format [.1f]
    rounds it, in tenths of a percent, and [avg_hundredths a b] is
    [round(a / b, 2)] in hundredths, both for a divisor other than zero. *)
Record clock := {
  utc_now : Z;
  to_datetime : string -> option Z;
  percent_tenths : Z -> Z -> Z;
  avg_hundredths : Z -> Z -> Z
}.

(** [if days_filter:] holds for a number of days other than zero. *)
Definition cutoff_date (c : clock) (days_filter : option Z) : option Z :=
  match days_filter with
  | Some d => if (d =? 0)%Z then None else Some (utc_now c - d * 86400)
  | None => None
  end.

(** [pd.to_datetime] converts the whole column and raises when one cell
    does not parse; the rows at or after the cutoff stay.  A cell read
    back as a missing value converts to [NaT], which is at or after no
    cutoff. *)
Fixpoint window_filter (c : clock) (cutoff : Z) (df : list row) : option (list row) :=
  match df with
  | [] => Some []
  | r :: df' =>
      if is_na (War_End_Time r) then window_filter c cutoff df'
      else
        match to_datetime c (War_End_Time r), window_filter c cutoff df' with
        | Some t, Some rest => Some (if (cutoff <=? t)%Z then r :: rest else rest)
        | _, _ => None
        end
  end.

Definition leaderboard_rows (o : io) (c : clock) (days_filter : option Z)
    (s : string * list row) : list row :=
  match cutoff_date c days_filter with
  | None => complete_rows o s
  | Some cutoff =>
      match window_filter c cutoff (complete_rows o s) with
      | Some df => df
      | None => []
      end
  end.

Definition all_attacks_df (o : io) (c : clock) (days_filter : option Z)
    (book : workbook) : list row :=
  war_sheets book ≫= leaderboard_rows o c days_filter.

(** *** Step 2: participation *)

Definition war_participation (all : list row) : list (key * Z) :=
  let all_war_participants_full :=
    drop_duplicates ((fun r => (Player_Name r, Player_Tag r, War_ID r)) <$> all) in
  (fun g => (fst g, nunique (snd <$> snd g)))
    <$> groupby fst all_war_participants_full.

(** *** Step 3: missed hits *)

Definition is_missed_attack (r : row) : bool :=
  bool_decide (Is_Missed r = "Yes") || (Attack_Number r =? 0)%Z.

Definition missed_attacks (all : list row) : list row :=
  filter (fun r => is_missed_attack r = true) all.

Definition count_missed (group : list row) : Z :=
  if existsb (fun r => (Attack_Number r =? 0)%Z) group
  then 2
  else Z.of_nat (length (filter (fun r => Is_Missed r = "Yes") group)).

(** [groupby(...).apply(count_missed).reset_index(name='Missed Hits')]:
    with at least one group [apply] returns a series, which
    [reset_index] names; with no group it returns an empty frame, whose
    [reset_index] takes no [name]: [None] is that [TypeError]. *)
Definition missed_stats (all : list row) : option (list (key * Z)) :=
  let groups := groupby row_key (missed_attacks all) in
  match groups with
  | [] => None
  | _ :: _ => Some ((fun g => (fst g, count_missed (snd g))) <$> groups)
  end.

(** *** Step 4: qualifying attacks *)

Definition combined_df (all : list row) : list row :=
  filter (fun r => 0 < Attack_Number r)
    (filter (fun r => Is_Loot_Hit r ≠ CStr "Yes" ∧ Is_Missed r ≠ "Yes") all).

(** *** Step 5: per-player sums *)

Record attack_stat := {
  as_Total_Stars : Z;
  as_Three_Stars : Z;
  as_Total_Attacks : Z
}.

Definition sum_Z (l : list Z) : Z := foldr Z.add 0 l.

(** The sum of an [int64] column wraps around. *)
Definition wrap_int64 (z : Z) : Z := (z + 2 ^ 63) mod 2 ^ 64 - 2 ^ 63.

Definition attack_stats (all : list row) : list (key * attack_stat) :=
  (fun g =>
     (fst g,
      {| as_Total_Stars := wrap_int64 (sum_Z (Stars <$> snd g));
         as_Three_Stars :=
           Z.of_nat (length (filter (fun r => Is_Triple r = "Yes") (snd g)));
         as_Total_Attacks := Z.of_nat (length (snd g)) |}))
    <$> groupby row_key (combined_df all).

(** *** Step 6: rates

    The two quotients are taken in double precision; the first is printed
    with one decimal and the second rounded to two.  A quotient by zero
    is [None]: the division raised. *)

Definition quotient (f : Z -> Z -> Z) (n d : Z) : option Z :=
  if (d =? 0)%Z then None else Some (f n d).

(** [f"{x:.1f}%"] for [x] given in tenths. *)
Definition format_rate (tenths : Z) : string :=
  pretty (tenths / 10) +:+ "." +:+ pretty (tenths mod 10) +:+ "%".

Definition three_star_rate (c : clock) (three_stars total_attacks : Z)
    : option string :=
  if (0 <? total_attacks)%Z
  then format_rate <$> quotient (percent_tenths c) three_stars total_attacks
  else Some "0.0%".

Definition avg_stars_per_attack (c : clock) (total_stars total_attacks : Z)
    : option Q :=
  if (0 <? total_attacks)%Z
  then (fun h => Qmake h 100) <$> quotient (avg_hundredths c) total_stars total_attacks
  else Some 0%Q.

Record player_stat := {
  ps_Player_Name : string;
  ps_Player_Tag : string;
  ps_Total_Wars : Z;
  ps_Total_Stars : Z;
  ps_Three_Stars : Z;
  ps_Total_Attacks : Z;
  ps_3_Star_Rate : string;
  ps_Avg_Stars_Per_Attack : Q;
  ps_Missed_Hits : Z
}.

Definition no_attacks : attack_stat :=
  {| as_Total_Stars := 0; as_Three_Stars := 0; as_Total_Attacks := 0 |}.

(** One row of the two left merges onto [war_participation], with
    [fillna(0)] and the two derived columns. *)
Definition player_stat_of (c : clock) (all : list row) (missed : list (key * Z))
    (p : key * Z) : option player_stat :=
  let k := fst p in
  let a := default no_attacks (assoc k (attack_stats all)) in
  rate ← three_star_rate c (as_Three_Stars a) (as_Total_Attacks a);
  avg ← avg_stars_per_attack c (as_Total_Stars a) (as_Total_Attacks a);
  Some {| ps_Player_Name := fst k;
          ps_Player_Tag := snd k;
          ps_Total_Wars := snd p;
          ps_Total_Stars := as_Total_Stars a;
          ps_Three_Stars := as_Three_Stars a;
          ps_Total_Attacks := as_Total_Attacks a;
          ps_3_Star_Rate := rate;
          ps_Avg_Stars_Per_Attack := avg;
          ps_Missed_Hits := default 0 (assoc k missed) |}.

Definition player_stats (c : clock) (all : list row) (missed : list (key * Z))
    : option (list player_stat) :=
  mapM (player_stat_of c all missed) (war_participation all).

(** *** Step 7: the output columns and the sort *)

Record leaderboard_entry := {
  Player_Name' : string;
  Player_Tag' : string;
  Three_Star_Rate : string;
  Avg_Stars_Per_Attack : Q;
  Total_Wars : Z;
  Total_Stars : Z;
  Missed_Hits : Z
}.

Definition output_columns (p : player_stat) : leaderboard_entry :=
  {| Player_Name' := ps_Player_Name p;
     Player_Tag' := ps_Player_Tag p;
     Three_Star_Rate := ps_3_Star_Rate p;
     Avg_Stars_Per_Attack := ps_Avg_Stars_Per_Attack p;
     Total_Wars := ps_Total_Wars p;
     Total_Stars := ps_Total_Stars p;
     Missed_Hits := ps_Missed_Hits p |}.

Definition digit_of (c : ascii) : option Z :=
  let n := Z.of_nat (nat_of_ascii c) in
  if (48 <=? n)%Z && (n <=? 57)%Z then Some (n - 48) else None.

Fixpoint read_digits (acc : Z) (s : string) : Z :=
  match s with
  | EmptyString => acc
  | String c s' =>
      match digit_of c with
      | Some d => read_digits (10 * acc + d) s'
      | None => read_digits acc s'
      end
  end.

(** [_sort_rate]: the printed rate read back as a number, here in tenths
    of a percent: the digits of ["12.5%"] read [125]. *)
Definition sort_rate (e : leaderboard_entry) : Z :=
  read_digits 0 (Three_Star_Rate e).

(** [ascending=[False, True, False]] on [_sort_rate], [Missed Hits],
    [Total Wars]. *)
Definition leaderboard_le (a b : leaderboard_entry) : bool :=
  if (sort_rate b <? sort_rate a)%Z then true
  else if (sort_rate a <? sort_rate b)%Z then false
  else if (Missed_Hits a <? Missed_Hits b)%Z then true
  else if (Missed_Hits b <? Missed_Hits a)%Z then false
  else (Total_Wars b <=? Total_Wars a)%Z.

(** What a call of [calculate_leaderboard] comes to: an uncaught
    exception, or a return of [None] or of the sorted frame. *)
Inductive leaderboard_result :=
  | Raised
  | Returned (lb : option (list leaderboard_entry)).

(** The steps in the order of the source: the missed-hit counts are
    taken, and may raise, before the guard on the qualifying attacks. *)
Definition leaderboard_of (c : clock) (all : list row) : leaderboard_result :=
  match all with
  | [] => Returned None
  | _ :: _ =>
      match missed_stats all with
      | None => Raised
      | Some missed =>
          match combined_df all with
          | [] => Returned None
          | _ :: _ =>
              match player_stats c all missed with
              | Some stats =>
                  Returned (Some (sort_values leaderboard_le (output_columns <$> stats)))
              | None => Raised
              end
          end
      end
  end.

Definition calculate_leaderboard (o : io) (c : clock) (st : store)
    (days_filter : option Z) : leaderboard_result :=
  match st with
  | None => Returned None
  | Some book => leaderboard_of c (all_attacks_df o c days_filter book)
  end.

(** The missed-hit count as the specification words it: for each war of
    the filtered set, 2 when the player has a sentinel row in that war,
    else the number of that player's missed rows in that war; summed over
    the wars. *)
Definition spec_missed_hits (all : list row) (k : key) : Z :=
  sum_Z
    ((fun war_id =>
        let in_war := filter (fun r => row_key r = k ∧ War_ID r = war_id) all in
        if existsb (fun r => (Attack_Number r =? 0)%Z) in_war
        then 2
        else Z.of_nat (length (filter (fun r => Is_Missed r = "Yes") in_war)))
       <$> drop_duplicates (War_ID <$> all)).

(** ** One run: [main] *)

(** What a run leaves behind: the workbook, the arguments of its calls of
    [save_war_to_excel] in order, whether the war report was composed,
    whether the run ended in an uncaught exception, and the leaderboard
    files written, by file-name suffix. *)
Record outcome := {
  out_store : store;
  out_saved : list war_data;
  out_reported : bool;
  out_crashed : bool;
  out_exports : list (string * list leaderboard_entry)
}.

Definition periods : list (option Z * string) :=
  [(None, "_all"); (Some 7, "_7d"); (Some 30, "_30d"); (Some 90, "_90d")].

(** The loop over [periods]: a frame that is neither [None] nor empty is
    written under its suffix; an exception ends the loop and the run. *)
Fixpoint export_leaderboards (o : io) (c : clock) (st : store)
    (ps : list (option Z * string)) : list (string * list leaderboard_entry) * bool :=
  match ps with
  | [] => ([], false)
  | p :: ps' =>
      match calculate_leaderboard o c st (fst p) with
      | Raised => ([], true)
      | Returned lb =>
          let rest := export_leaderboards o c st ps' in
          match lb with
          | Some (e :: lb') => ((snd p, e :: lb') :: fst rest, snd rest)
          | _ => rest
          end
      end
  end.

(** [save_war_to_excel], [update_roster_sheet], [update_missed_hits_sheet]
    in sequence; the flag tells that the roster rebuild raised. *)
Definition save_and_rebuild (o : io) (st : store) (wd : war_data) : store * bool :=
  let st1 := fst (save_war_to_excel st wd) in
  match update_roster_sheet o st1 with
  | None => (st1, true)
  | Some st2 => (update_missed_hits_sheet o st2, false)
  end.

(** The branch of [main] that handles the fetched war, up to the
    leaderboards. *)
Definition war_update (o : io) (st : store) (w : war) : outcome :=
  let untouched :=
    {| out_store := st; out_saved := []; out_reported := false;
       out_crashed := false; out_exports := [] |} in
  if String.eqb (default "notInWar" (state w)) "notInWar" then untouched
  else if is_cwl_war w then untouched
  else
    match process_war o st w true with
    | None => untouched
    | Some wd =>
        let is_complete := snd (war_already_saved (saved_read_raises o) st (wd_war_id wd)) in
        if is_complete then untouched
        else
          let r := save_and_rebuild o st wd in
          {| out_store := fst r;
             out_saved := [wd];
             out_reported := wd_is_ended wd && negb (snd r);
             out_crashed := snd r;
             out_exports := [] |}
    end.

Definition main (o : io) (c : clock) (st : store) (fetched : option war) : outcome :=
  match fetched with
  | None =>
      {| out_store := st; out_saved := []; out_reported := false;
         out_crashed := false; out_exports := [] |}
  | Some w =>
      if war_truthy w then
        let u := war_update o st w in
        if out_crashed u then u
        else
          let x := export_leaderboards o c (out_store u) periods in
          {| out_store := out_store u;
             out_saved := out_saved u;
             out_reported := out_reported u;
             out_crashed := snd x;
             out_exports := fst x |}
      else
        {| out_store := st; out_saved := []; out_reported := false;
           out_crashed := false; out_exports := [] |}
  end.

(** ** The request of the fetcher *)

(** [tag.startswith('#')] *)
Definition starts_with_hash (tag : string) : bool :=
  match tag with
  | String c _ => Ascii.eqb c "#"
  | EmptyString => false
  end.

Definition format_tag (tag : string) : string :=
  if starts_with_hash tag then tag else String "#" tag.

(** [s.replace('#', '%23')] *)
Fixpoint replace_hash (s : string) : string :=
  match s with
  | EmptyString => EmptyString
  | String c s' =>
      if Ascii.eqb c "#" then "%23" +:+ replace_hash s' else String c (replace_hash s')
  end.

Definition BASE_URL : string := "https://api.clashofclans.com/v1".

(** The address [fetch_current_war] requests, for the configured
    [CLAN_TAG]. *)
Definition currentwar_url (CLAN_TAG : string) : string :=
  BASE_URL +:+ "/clans/" +:+ replace_hash (format_tag CLAN_TAG) +:+ "/currentwar".

(** ** The war report

    The embed that [send_discord_war_report] composes, without its
    decoration: the outcome that picks the title, the colour, the top
    performers and the count of missed attacks.  [None] is a call that
    posts nothing: the return without a configured webhook, and the
    handler's return when [war_details] is empty, whose frame has no
    [Attack Number] column to filter on. *)

Inductive war_outcome := Victory | Defeat | Tie.

Definition report_result (clan_stars opponent_stars : Z) : war_outcome :=
  if (opponent_stars <? clan_stars)%Z then Victory
  else if (clan_stars <? opponent_stars)%Z then Defeat
  else Tie.

Definition report_color (clan_stars opponent_stars : Z) : Z :=
  if (opponent_stars <? clan_stars)%Z then 0x10b981
  else if (clan_stars <? opponent_stars)%Z then 0xef4444
  else 0xf59e0b.

Record war_report := {
  wr_result : war_outcome;
  wr_color : Z;
  wr_clan_name : string;
  wr_opponent_name : string;
  wr_top_performers : list (string * Z * Q);
  wr_missed_count : Z
}.

(** [Stars] descending, for [nlargest], which keeps the frame order among
    equal values. *)
Definition stars_ge (a b : row) : bool := (Stars b <=? Stars a)%Z.

(** [df.nlargest(3, 'Stars')] *)
Definition nlargest_stars (df : list row) : list row :=
  take 3 (sort_values stars_ge df).

Definition side_stars (s : option side) : Z :=
  match s with
  | Some x => default 0 (s_stars x)
  | None => 0
  end.

Definition side_name (s : option side) : string :=
  match s with
  | Some x => default "Unknown" (s_name x)
  | None => "Unknown"
  end.

Definition send_discord_war_report (DISCORD_WEBHOOK_URL : option string)
    (wd : war_data) (w : war) : option war_report :=
  match DISCORD_WEBHOOK_URL with
  | None => None
  | Some url =>
      if String.eqb url "" then None
      else
        let clan_stars := side_stars (clan w) in
        let opponent_stars := side_stars (opponent w) in
        match wd_war_details wd with
        | [] => None
        | _ :: _ =>
            let df := filter (fun r => 0 < Attack_Number r) (wd_war_details wd) in
            Some {| wr_result := report_result clan_stars opponent_stars;
                    wr_color := report_color clan_stars opponent_stars;
                    wr_clan_name := side_name (clan w);
                    wr_opponent_name := side_name (opponent w);
                    wr_top_performers :=
                      (fun r => (Player_Name r, Stars r, Destruction r))
                        <$> nlargest_stars df;
                    wr_missed_count :=
                      Z.of_nat (length (filter (fun r => Is_Missed r = "Yes") df)) |}
        end
  end.

(** ** Notions used in the statements *)

(** The war sheets of a stored workbook; none when the file is absent. *)
Definition sheets_of (st : store) : list (string * list row) :=
  match st with
  | Some book => war_sheets book
  | None => []
  end.

(** The outcome of a run that saves nothing. *)
Definition untouched (st : store) : outcome :=
  {| out_store := st; out_saved := []; out_reported := false;
     out_crashed := false; out_exports := [] |}.

(** One scheduled run after another: the workbook a run leaves is the one
    the next run finds. *)
Definition run_step (st : store) (r : io * clock * option war) : store :=
  out_store (main r.1.1 r.1.2 st r.2).

(** The values of the two derived columns, which [three_star_rate] and
    [avg_stars_per_attack] are shown to return. *)
Definition rate_value (c : clock) (three_stars total_attacks : Z) : string :=
  if (0 <? total_attacks)%Z
  then format_rate (percent_tenths c three_stars total_attacks)
  else "0.0%".

Definition avg_value (c : clock) (total_stars total_attacks : Z) : Q :=
  if (0 <? total_attacks)%Z
  then Qmake (avg_hundredths c total_stars total_attacks) 100
  else 0%Q.

Definition stat_row (c : clock) (all : list row) (missed : list (key * Z))
    (p : key * Z) : player_stat :=
  let a := default no_attacks (assoc (fst p) (attack_stats all)) in
  {| ps_Player_Name := fst (fst p);
     ps_Player_Tag := snd (fst p);
     ps_Total_Wars := snd p;
     ps_Total_Stars := as_Total_Stars a;
     ps_Three_Stars := as_Three_Stars a;
     ps_Total_Attacks := as_Total_Attacks a;
     ps_3_Star_Rate := rate_value c (as_Three_Stars a) (as_Total_Attacks a);
     ps_Avg_Stars_Per_Attack := avg_value c (as_Total_Stars a) (as_Total_Attacks a);
     ps_Missed_Hits := default 0 (assoc (fst p) missed) |}.

(** The frame of the missed-hit counts, one line per group. *)
Definition missed_table (all : list row) : list (key * Z) :=
  (fun g => (fst g, count_missed (snd g))) <$> groupby row_key (missed_attacks all).

(** The filtered set has a missed or sentinel row whose player is read
    back with a name and a tag: the missed-hit counts have a group. *)
Definition has_missed_row (all : list row) : Prop :=
  ∃ r, r ∈ all ∧ is_missed_attack r = true ∧ na_key (row_key r) = false.

(** The frame a returning aggregator sorts. *)
Definition leaderboard_frame (c : clock) (all : list row) : list leaderboard_entry :=
  output_columns <$> (stat_row c all (missed_table all) <$> war_participation all).

(** The order of the final sort, spelled out. *)
Definition ranks_before (a b : leaderboard_entry) : Prop :=
  sort_rate b < sort_rate a
  ∨ (sort_rate a = sort_rate b
     ∧ (Missed_Hits a < Missed_Hits b
        ∨ (Missed_Hits a = Missed_Hits b ∧ Total_Wars b <= Total_Wars a))).

(** The roster counter of a player, and the number of rows with an
    attack number above zero that a player has in a list of rows. *)
Definition participated (all_players : gmap string roster_entry) (tag : string) : Z :=
  default 0 (ro_Wars_Participated <$> all_players !! tag).

Definition attack_rows (tag : string) (rows : list row) : Z :=
  Z.of_nat (length (filter (fun r => Player_Tag r = tag ∧ 0 < Attack_Number r) rows)).

(** The roster dict holds each entry under the entry's own tag. *)
Definition keyed_by_tag (all_players : gmap string roster_entry) : Prop :=
  ∀ tag e, all_players !! tag = Some e -> ro_Player_Tag e = tag.

(** The attack numbers a sheet marks as loot hits for one player. *)
Definition loot_marks (P : string) (df : list row) : list Z :=
  Attack_Number
    <$> filter (fun r => Player_Tag r = P ∧ is_loot_mark (Is_Loot_Hit r) = true) df.

(** The entry a player's first row creates. *)
Definition first_entry (r : row) : roster_entry :=
  {| ro_Player_Tag := Player_Tag r;
     ro_Player_Name := Player_Name r;
     ro_Last_Seen_TH := Town_Hall r;
     ro_Total_Wars := 0;
     ro_Wars_Participated := 0 |}.

(** What the scan keeps true of the dict against the rows visited so far. *)
Definition roster_inv (m : gmap string roster_entry) (rows : list row) : Prop :=
  ∀ tag,
    match m !! tag with
    | None => ∀ r, r ∈ rows -> Player_Tag r ≠ tag
    | Some e =>
        ro_Player_Tag e = tag
        ∧ (∃ r, r ∈ rows ∧ Player_Tag r = tag ∧ Town_Hall r = ro_Last_Seen_TH e)
        ∧ (∀ r, r ∈ rows -> Player_Tag r = tag -> Town_Hall r <= ro_Last_Seen_TH e)
        ∧ (∃ r, head (filter (fun r => Player_Tag r = tag) rows) = Some r
                ∧ ro_Player_Name e = Player_Name r)
    end.

(** The sheet names that war identifiers give.  [get_war_id] makes the
    identifier from one of the API's compact timestamps, or from a clock
    reading, with colons and periods replaced: it is not empty and its
    characters are digits, [T], [Z] and hyphens.  In a workbook whose war
    sheets are all named so, openpyxl's [create_sheet] keeps such a title
    as it is given (it gives another name for the empty title and for a
    title that differs from a present one by case only, and refuses a
    title with one of [\ / ? * [ ] :]), and [pd.read_excel] finds the
    sheet under it. *)
Definition stamp_char (c : ascii) : bool :=
  let n := nat_of_ascii c in
  ((48 <=? n)%nat && (n <=? 57)%nat)
  || Ascii.eqb c "T" || Ascii.eqb c "Z" || Ascii.eqb c "-".

Definition stamp_name (s : string) : bool :=
  negb (String.eqb s "") && forallb stamp_char (list_ascii_of_string s).

Definition stamp_names (st : store) : Prop :=
  Forall (fun s => stamp_name (fst s) = true) (sheets_of st).

(** An attack that was used and earned nothing: the rows [process_war]
    marks as missed. *)
Definition zero_attack (a : attack) : bool :=
  (default 0 (a_stars a) =? 0)%Z
  && Qeq_bool (default (0 : Q) (a_destructionPercentage a)) 0.

(** The attacks of the clan's members in a snapshot. *)
Definition attacks_of (w : war) : list attack :=
  members_of w ≫= fun m => default [] (m_attacks m).

(** ** Sample snapshots and workbooks *)

Definition sample_attack (stars : Z) (destruction : Q) : attack :=
  {| a_stars := Some stars; a_destructionPercentage := Some destruction |}.

Definition sample_member (name tag : string) (attacks : list attack) : member :=
  {| m_tag := Some tag; m_name := Some name; m_townhallLevel := Some 12;
     m_mapPosition := Some 1; m_attacks := Some attacks |}.

Definition sample_war (st : string) (members : list member) : war :=
  {| state := Some st;
     preparationStartTime := Some "20240101T000000.000Z";
     endTime := Some "20240103T000000.000Z";
     teamSize := Some 5;
     warLeague := None;
     clan := Some {| s_name := Some "Turtle"; s_stars := Some 3;
                     s_destructionPercentage := Some 100%Q;
                     s_members := Some members |};
     opponent := None |}.

Definition sample_row (war_id complete name tag : string) (n stars : Z)
    (destruction : Q) (loot : cell) : row :=
  {| War_ID := war_id;
     War_State := if String.eqb complete "Yes" then "warEnded" else "inWar";
     War_Complete := complete;
     War_End_Time := "20240103T000000.000Z";
     Team_Size := 5;
     Player_Name := name;
     Player_Tag := tag;
     Town_Hall := 12;
     Map_Position := 1;
     Attack_Number := n;
     Stars := stars;
     Destruction := destruction;
     Is_Triple := yes_no (stars =? 3)%Z;
     Is_Missed := yes_no ((stars =? 0)%Z && Qeq_bool destruction 0);
     Is_Loot_Hit := loot |}.

Definition sample_store (sheets : list (string * list row)) : store :=
  Some {| roster_sheet := None; missed_hits_sheet := None; war_sheets := sheets |}.

(** The two derived columns on the exact quotient, rounded half to even:
    what double precision gives for the quotients of the samples below,
    which are halves and whole numbers. *)
Definition round_half_even (n d : Z) : Z :=
  let q := n / d in
  let r := n mod d in
  if (2 * r <? d)%Z then q
  else if (d <? 2 * r)%Z then q + 1
  else if Z.even q then q else q + 1.

Definition sample_clock : clock :=
  {| utc_now := 1704326400;
     to_datetime := fun _ => Some 1704240000;
     percent_tenths := fun a b => round_half_even (a * 1000) b;
     avg_hundredths := fun a b => round_half_even (a * 100) b |}.

(** No read raises. *)
Definition quiet_io : io :=
  {| now_str := "1704067200.0";
     loot_read_raises := false;
     saved_read_raises := false;
     sheet_read_raises := fun _ => false |}.

(** A later run: the clock has moved on. *)
Definition later_io : io :=
  {| now_str := "1704070800.5";
     loot_read_raises := false;
     saved_read_raises := false;
     sheet_read_raises := fun _ => false |}.

(** The read-back of the loot marks raises. *)
Definition loot_failing_io : io :=
  {| now_str := "1704067200.0";
     loot_read_raises := true;
     saved_read_raises := false;
     sheet_read_raises := fun _ => false |}.

(** Both reads of the war's sheet raise. *)
Definition failing_io : io :=
  {| now_str := "1704067200.0";
     loot_read_raises := true;
     saved_read_raises := true;
     sheet_read_raises := fun _ => false |}.

(** A war in progress, stored with attack 2 of #A marked as a loot hit,
    and its next snapshot with the same two attacks. *)
Definition marked_store : store :=
  sample_store
    [("20240101T000000-000Z",
      [sample_row "20240101T000000-000Z" "No" "Ann" "#A" 1 3 100 (CStr "No");
       sample_row "20240101T000000-000Z" "No" "Ann" "#A" 2 2 80 (CStr "Yes")])].

Definition refetched_war : war :=
  sample_war "inWar" [sample_member "Ann" "#A" [sample_attack 3 100; sample_attack 2 80]].

(** The same war stored complete, and its snapshot after the end. *)
Definition complete_marked_store : store :=
  sample_store
    [("20240101T000000-000Z",
      [sample_row "20240101T000000-000Z" "Yes" "Ann" "#A" 1 3 100 (CStr "No");
       sample_row "20240101T000000-000Z" "Yes" "Ann" "#A" 2 2 80 (CStr "Yes")])].

Definition ended_war : war :=
  sample_war "warEnded"
    [sample_member "Ann" "#A" [sample_attack 3 100; sample_attack 2 80]].

(** X: one war, one attack, three stars.  Y: three wars, four attacks,
    two of them three stars. *)
Definition scenario_C : store :=
  sample_store
    [("W1", [sample_row "W1" "Yes" "X" "#X" 1 3 100 (CStr "No");
             sample_row "W1" "Yes" "Y" "#Y" 1 3 100 (CStr "No")]);
     ("W2", [sample_row "W2" "Yes" "Y" "#Y" 1 1 40 (CStr "No")]);
     ("W3", [sample_row "W3" "Yes" "Y" "#Y" 1 3 100 (CStr "No");
             sample_row "W3" "Yes" "Y" "#Y" 2 2 80 (CStr "No")])].


(** One complete war: Ann attacked twice, Bob not at all. *)
Definition two_players_book : workbook :=
  {| roster_sheet := None; missed_hits_sheet := None;
     war_sheets :=
       [("W1", [sample_row "W1" "Yes" "Ann" "#A" 1 3 100 (CStr "No");
                sample_row "W1" "Yes" "Ann" "#A" 2 2 80 (CStr "No");
                sample_row "W1" "Yes" "Bob" "#B" 0 0 0 (CStr "No")])] |}.

(** Ann attacked in neither of two complete wars. *)
Definition two_absences_book : workbook :=
  {| roster_sheet := None; missed_hits_sheet := None;
     war_sheets :=
       [("W1", [sample_row "W1" "Yes" "Ann" "#A" 0 0 0 (CStr "No");
                sample_row "W1" "Yes" "Bob" "#B" 1 3 100 (CStr "No")]);
        ("W2", [sample_row "W2" "Yes" "Ann" "#A" 0 0 0 (CStr "No");
                sample_row "W2" "Yes" "Bob" "#B" 1 3 100 (CStr "No")])] |}.


Definition with_town_hall (th : Z) (r : row) : row :=
  {| War_ID := War_ID r; War_State := War_State r; War_Complete := War_Complete r;
     War_End_Time := War_End_Time r; Team_Size := Team_Size r;
     Player_Name := Player_Name r; Player_Tag := Player_Tag r;
     Town_Hall := th; Map_Position := Map_Position r;
     Attack_Number := Attack_Number r; Stars := Stars r;
     Destruction := Destruction r; Is_Triple := Is_Triple r;
     Is_Missed := Is_Missed r; Is_Loot_Hit := Is_Loot_Hit r |}.

(** The player of tag [#A] changed name and town hall between two wars. *)
Definition renamed_book : workbook :=
  {| roster_sheet := None; missed_hits_sheet := None;
     war_sheets :=
       [("W1", [sample_row "W1" "Yes" "Ann" "#A" 1 3 100 (CStr "No")]);
        ("W2", [with_town_hall 13
                  (sample_row "W2" "Yes" "Anna" "#A" 1 2 80 (CStr "No"))])] |}.

(** An ended war: Ann used one attack for nothing and one for a star, Bob
    did not attack, Cid and Dan attacked. *)
Definition idle_war : war :=
  sample_war "warEnded"
    [sample_member "Ann" "#A" [sample_attack 0 0; sample_attack 1 40];
     sample_member "Bob" "#B" [];
     sample_member "Cid" "#C" [sample_attack 2 80; sample_attack 3 100];
     sample_member "Dan" "#D" [sample_attack 3 90]].

Definition report_data : war_data :=
  {| wd_war_id := "W1";
     wd_war_details :=
       [sample_row "W1" "Yes" "Ann" "#A" 1 0 0 (CStr "No");
        sample_row "W1" "Yes" "Ann" "#A" 2 1 40 (CStr "No");
        sample_row "W1" "Yes" "Bob" "#B" 0 0 0 (CStr "No");
        sample_row "W1" "Yes" "Cid" "#C" 1 2 80 (CStr "No");
        sample_row "W1" "Yes" "Cid" "#C" 2 3 100 (CStr "No");
        sample_row "W1" "Yes" "Dan" "#D" 1 3 90 (CStr "No")];
     wd_is_ended := true |}.

(** Equal stars on both sides, unequal destruction. *)
Definition even_war : war :=
  {| state := Some "warEnded";
     preparationStartTime := Some "20240101T000000.000Z";
     endTime := Some "20240103T000000.000Z";
     teamSize := Some 5;
     warLeague := None;
     clan := Some {| s_name := Some "Turtle"; s_stars := Some 10;
                     s_destructionPercentage := Some 90%Q;
                     s_members := Some [] |};
     opponent := Some {| s_name := Some "Hare"; s_stars := Some 10;
                         s_destructionPercentage := Some 70%Q;
                         s_members := None |} |}.


(** * Properties *)

(** ** The normalizer *)

Lemma elem_of_member_rows w war_id loot m r :
  r ∈ member_rows w war_id loot m <->
  (∃ i a, default [] (m_attacks m) !! i = Some a
          ∧ r = attack_row w war_id loot m (Z.of_nat i + 1) a)
  ∨ (default [] (m_attacks m) = [] ∧ r = sentinel_row w war_id m).
Proof.
  unfold member_rows. rewrite elem_of_app, elem_of_lookup_imap.
  destruct (default [] (m_attacks m)) as [|a0 attacks] eqn:E.
  - rewrite list_elem_of_singleton. split.
    + intros [(i & a & _ & ?)|?]; [done|by right].
    + intros [(i & a & ? & _)|[_ ?]]; [done|by right].
  - rewrite elem_of_nil. split.
    + intros [(i & a & ? & ?)|[]]. left. by exists i, a.
    + intros [(i & a & ? & ?)|[? _]]; [|done]. left. by exists i, a.
Qed.

Lemma process_war_Some o st w preserve wd :
  process_war o st w preserve = Some wd ->
  ∃ loot,
    wd = {| wd_war_id := get_war_id (now_str o) w;
            wd_war_details :=
              members_of w ≫= member_rows w (get_war_id (now_str o) w) loot;
            wd_is_ended := is_war_ended w |}
    ∧ loot = (if preserve
              then get_existing_loot_hits (loot_read_raises o) st
                     (get_war_id (now_str o) w)
              else ∅).
Proof.
  unfold process_war. destruct (war_truthy w); [|done].
  intros [= <-]. eauto.
Qed.

Lemma attack_row_number w war_id loot m n a :
  Attack_Number (attack_row w war_id loot m n a) = n.
Proof. reflexivity. Qed.

Lemma is_war_ended_iff w : is_war_ended w = true <-> state w = Some "warEnded".
Proof. unfold is_war_ended. apply bool_decide_eq_true. Qed.

(** C5, as amended: the war-complete flag is true exactly when the
    snapshot's state is the string "warEnded" (not "ended"), and the
    normalizer writes that one value, as Yes or No, into every record it
    outputs and returns it as the war's ended flag. *)
Theorem C5_war_complete_flag o st w preserve wd :
  process_war o st w preserve = Some wd ->
  (is_war_ended w = true <-> state w = Some "warEnded")
  ∧ wd_is_ended wd = is_war_ended w
  ∧ Forall (fun r => War_Complete r = yes_no (is_war_ended w)) (wd_war_details wd).
Proof.
  intros (loot & -> & _)%process_war_Some. split; [apply is_war_ended_iff|].
  split; [done|]. simpl. apply Forall_forall. intros r Hr.
  apply list_elem_of_bind in Hr as (m & Hr & _).
  apply elem_of_member_rows in Hr as [(i & a & _ & ->)|[_ ->]]; reflexivity.
Qed.

Lemma C5_war_complete_flag_witness :
  ∃ wd,
    process_war quiet_io None
      (sample_war "warEnded" [sample_member "Ann" "#A" [sample_attack 3 100]]) true
    = Some wd
    ∧ wd_is_ended wd = true
    ∧ Forall (fun r => War_Complete r = "Yes") (wd_war_details wd).
Proof.
  eexists. split; [reflexivity|].
  destruct (C5_war_complete_flag quiet_io None
              (sample_war "warEnded" [sample_member "Ann" "#A" [sample_attack 3 100]])
              true _ eq_refl) as (_ & H1 & H2).
  split; [exact H1 | exact H2].
Defined.

(** C5, the claim as worded fails: a snapshot whose state is "ended" is
    not complete for the code, which writes No into its records. *)
Lemma C5_state_ended_is_not_complete :
  let w := sample_war "ended" [sample_member "Ann" "#A" [sample_attack 3 100]] in
  state w = Some "ended"
  ∧ is_war_ended w = false
  ∧ (War_Complete <$> (default [] (wd_war_details <$> process_war quiet_io None w true)))
    = ["No"].
Proof. repeat split. Qed.

(** C10: every record numbered 0 that [process_war] emits carries
    Is Loot Hit = No, whatever the loot marks read back from the workbook;
    a member without attacks gets exactly that one record, so a mark
    placed by hand on a sentinel row does not survive a re-fetch. *)
Theorem C10_sentinel_never_loot o st w preserve wd :
  process_war o st w preserve = Some wd ->
  Forall (fun r => Attack_Number r = 0 -> Is_Loot_Hit r = CStr "No")
         (wd_war_details wd)
  ∧ ∀ m, m ∈ members_of w -> default [] (m_attacks m) = [] ->
      ∃ r, r ∈ wd_war_details wd
           ∧ Player_Tag r = default "" (m_tag m)
           ∧ Attack_Number r = 0
           ∧ Is_Loot_Hit r = CStr "No".
Proof.
  intros (loot & -> & _)%process_war_Some. simpl. split.
  - apply Forall_forall. intros r Hr.
    apply list_elem_of_bind in Hr as (m & Hr & _).
    apply elem_of_member_rows in Hr as [(i & a & _ & ->)|[_ ->]]; [|done].
    rewrite attack_row_number. lia.
  - intros m Hm Hnone.
    exists (sentinel_row w (get_war_id (now_str o) w) m). split; [|done].
    apply list_elem_of_bind. exists m. split; [|done].
    apply elem_of_member_rows. by right.
Qed.

Lemma C10_sentinel_never_loot_witness :
  let st := sample_store
              [("20240101T000000-000Z",
                [sample_row "20240101T000000-000Z" "No" "Ann" "#A" 0 0 0 (CStr "Yes")])] in
  let w := sample_war "inWar" [sample_member "Ann" "#A" []] in
  get_existing_loot_hits false st (get_war_id (now_str quiet_io) w) !! "#A" = Some [0]
  ∧ ∃ wd,
      process_war quiet_io st w true = Some wd
      ∧ Forall (fun r => Attack_Number r = 0 -> Is_Loot_Hit r = CStr "No")
               (wd_war_details wd)
      ∧ length (wd_war_details wd) = 1%nat.
Proof.
  intros st w. split; [reflexivity|].
  eexists. split; [reflexivity|].
  split; [|reflexivity].
  exact (proj1 (C10_sentinel_never_loot quiet_io st w true _ eq_refl)).
Defined.

(** ** The workbook under a run *)

Lemma find_sheet_app name l1 l2 :
  find_sheet name (l1 ++ l2) =
  match find_sheet name l1 with
  | Some df => Some df
  | None => find_sheet name l2
  end.
Proof.
  induction l1 as [|[n df] l1 IH]; simpl; [done|].
  destruct (String.eqb n name); [done|apply IH].
Qed.

Lemma find_sheet_del_eq name l : find_sheet name (del_sheet name l) = None.
Proof.
  unfold del_sheet. induction l as [|[n df] l IH]; [done|].
  rewrite filter_cons. simpl. case_decide as Hn; [|apply IH].
  simpl. apply String.eqb_neq in Hn. rewrite Hn. apply IH.
Qed.

Lemma find_sheet_del_ne name n l :
  n ≠ name -> find_sheet n (del_sheet name l) = find_sheet n l.
Proof.
  intros Hne. unfold del_sheet. induction l as [|[n' df] l IH]; [done|].
  rewrite filter_cons. simpl. case_decide as Hn; simpl.
  - destruct (String.eqb n' n); [done|apply IH].
  - simpl in Hn. subst n'.
    assert (String.eqb name n = false) as -> by (apply String.eqb_neq; congruence).
    apply IH.
Qed.

Lemma update_roster_sheet_sheets o st st' :
  update_roster_sheet o st = Some st' -> sheets_of st' = sheets_of st.
Proof.
  destruct st as [book|]; simpl; [|by intros [= <-]].
  destruct (roster_view o book); [done|]. by intros [= <-].
Qed.

Lemma update_missed_hits_sheet_sheets o st :
  sheets_of (update_missed_hits_sheet o st) = sheets_of st.
Proof.
  destruct st as [book|]; simpl; [|done].
  by destruct (all_missed o book).
Qed.

Lemma save_war_to_excel_sheets st wd :
  wd_war_details wd ≠ [] ->
  sheets_of (fst (save_war_to_excel st wd)) =
  del_sheet (sheet_name_of (wd_war_id wd)) (sheets_of st)
  ++ [(sheet_name_of (wd_war_id wd), wd_war_details wd)].
Proof.
  unfold save_war_to_excel. destruct (wd_war_details wd) eqn:E; [done|].
  intros _. by destruct st.
Qed.

Lemma save_war_to_excel_nil st wd :
  wd_war_details wd = [] -> fst (save_war_to_excel st wd) = st.
Proof. unfold save_war_to_excel. by intros ->. Qed.

Lemma save_and_rebuild_sheets o st wd :
  sheets_of (fst (save_and_rebuild o st wd)) = sheets_of (fst (save_war_to_excel st wd)).
Proof.
  unfold save_and_rebuild.
  destruct (update_roster_sheet o (save_war_to_excel st wd).1) as [st2|] eqn:E; simpl.
  - rewrite update_missed_hits_sheet_sheets. by eapply update_roster_sheet_sheets.
  - done.
Qed.

(** The sheet stored for a war after a save that had rows to write. *)
Lemma save_and_rebuild_stored o st wd :
  wd_war_details wd ≠ [] ->
  find_sheet (sheet_name_of (wd_war_id wd)) (sheets_of (fst (save_and_rebuild o st wd)))
  = Some (wd_war_details wd).
Proof.
  intros Hne. rewrite save_and_rebuild_sheets, save_war_to_excel_sheets by done.
  rewrite find_sheet_app, find_sheet_del_eq. simpl. by rewrite String.eqb_refl.
Qed.

Lemma save_and_rebuild_other o st wd n :
  n ≠ sheet_name_of (wd_war_id wd) ->
  find_sheet n (sheets_of (fst (save_and_rebuild o st wd))) = find_sheet n (sheets_of st).
Proof.
  intros Hne. rewrite save_and_rebuild_sheets.
  destruct (wd_war_details wd) eqn:E.
  - by rewrite save_war_to_excel_nil.
  - rewrite save_war_to_excel_sheets by (by rewrite E).
    rewrite find_sheet_app, find_sheet_del_ne by done.
    destruct (find_sheet n (sheets_of st)); [done|]. simpl.
    assert (String.eqb (sheet_name_of (wd_war_id wd)) n = false) as ->
      by (apply String.eqb_neq; congruence).
    done.
Qed.

(** The four ways through [war_update]. *)
Lemma war_update_cases o st w :
  war_update o st w = untouched st
  ∨ ∃ wd,
      process_war o st w true = Some wd
      ∧ snd (war_already_saved (saved_read_raises o) st (wd_war_id wd)) = false
      ∧ out_store (war_update o st w) = fst (save_and_rebuild o st wd)
      ∧ out_saved (war_update o st w) = [wd].
Proof.
  unfold war_update, untouched.
  destruct (String.eqb _ _); [by left|].
  destruct (is_cwl_war w); [by left|].
  destruct (process_war o st w true) as [wd|] eqn:Hp; [|by left].
  destruct (snd (war_already_saved _ st (wd_war_id wd))) eqn:Hc; [by left|].
  right. exists wd. done.
Qed.

Lemma war_update_complete o st w :
  snd (war_already_saved (saved_read_raises o) st (get_war_id (now_str o) w)) = true ->
  war_update o st w = untouched st.
Proof.
  intros Hc. destruct (war_update_cases o st w) as [?|(wd & Hp & Hn & _)]; [done|].
  apply process_war_Some in Hp as (loot & -> & _). simpl in Hn. congruence.
Qed.

Lemma main_store o c st fetched :
  out_store (main o c st fetched)
  = match fetched with
    | Some w => if war_truthy w then out_store (war_update o st w) else st
    | None => st
    end.
Proof.
  unfold main. destruct fetched as [w|]; [|done].
  destruct (war_truthy w); [|done]. by destruct (out_crashed _).
Qed.

Lemma main_saved o c st fetched :
  out_saved (main o c st fetched)
  = match fetched with
    | Some w => if war_truthy w then out_saved (war_update o st w) else []
    | None => []
    end.
Proof.
  unfold main. destruct fetched as [w|]; [|done].
  destruct (war_truthy w); [|done]. by destruct (out_crashed _).
Qed.

(** The guard of [main]: a run whose existence check reports the war's
    stored record set complete calls [save_war_to_excel] for no war and
    leaves the workbook exactly as it found it. *)
Lemma complete_war_is_not_saved o c st w :
  snd (war_already_saved (saved_read_raises o) st (get_war_id (now_str o) w)) = true ->
  out_saved (main o c st (Some w)) = []
  ∧ out_store (main o c st (Some w)) = st.
Proof.
  intros Hc. rewrite main_saved, main_store.
  destruct (war_truthy w); [|done].
  by rewrite (war_update_complete o st w Hc).
Qed.

Lemma complete_war_is_not_saved_witness :
  let st := sample_store
              [("20240101T000000-000Z",
                [sample_row "20240101T000000-000Z" "Yes" "Ann" "#A" 1 3 100 (CStr "Yes")])] in
  let w := sample_war "warEnded" [sample_member "Ann" "#A" [sample_attack 2 80]] in
  snd (war_already_saved (saved_read_raises quiet_io) st
         (get_war_id (now_str quiet_io) w)) = true
  ∧ out_saved (main quiet_io sample_clock st (Some w)) = []
  ∧ out_store (main quiet_io sample_clock st (Some w)) = st.
Proof.
  intros st w. split; [reflexivity|].
  exact (complete_war_is_not_saved quiet_io sample_clock st w eq_refl).
Defined.

Lemma complete_sheet_survives_run o c st fetched name r0 rest :
  saved_read_raises o = false ->
  find_sheet name (sheets_of st) = Some (r0 :: rest) ->
  War_Complete r0 = "Yes" ->
  find_sheet name (sheets_of (out_store (main o c st fetched))) = Some (r0 :: rest).
Proof.
  intros Ho Hf Hc. rewrite main_store.
  destruct fetched as [w|]; [|done]. destruct (war_truthy w); [|done].
  destruct (war_update_cases o st w) as [->|(wd & _ & Hn & -> & _)]; [done|].
  destruct (decide (name = sheet_name_of (wd_war_id wd))) as [->|Hne].
  - exfalso. rewrite Ho in Hn. unfold war_already_saved in Hn.
    destruct st as [book|]; [|done]. simpl in Hf. rewrite Hf in Hn. simpl in Hn.
    by rewrite bool_decide_eq_false in Hn.
  - by rewrite save_and_rebuild_other.
Qed.

(** Over any sequence of runs whose existence checks raise nothing, a
    stored sheet whose first row is marked complete stays as it is. *)
Lemma complete_sheet_survives_runs runs st name r0 rest :
  Forall (fun r => saved_read_raises r.1.1 = false) runs ->
  find_sheet name (sheets_of st) = Some (r0 :: rest) ->
  War_Complete r0 = "Yes" ->
  find_sheet name (sheets_of (foldl run_step st runs)) = Some (r0 :: rest).
Proof.
  intros Hruns. revert st. induction Hruns as [|[[o c] f] runs Ho _ IH]; intros st Hf Hc.
  - done.
  - simpl. apply IH; [|done]. by apply complete_sheet_survives_run.
Qed.

(** ** Loot-hit marks across a re-fetch *)

Lemma loot_visit_fold P N df : ∀ acc,
  N ∈ default [] (foldl loot_visit acc df !! P) <->
  N ∈ default [] (acc !! P)
  ∨ ∃ r, r ∈ df ∧ Player_Tag r = P ∧ Attack_Number r = N
         ∧ is_loot_mark (Is_Loot_Hit r) = true ∧ is_na P = false.
Proof.
  induction df as [|r df IH]; intros acc; simpl.
  - split; [by left|]. intros [?|(r & []%elem_of_nil & _)]. done.
  - rewrite IH. unfold loot_visit at 1.
    assert ((∃ r', r' ∈ r :: df ∧ Player_Tag r' = P ∧ Attack_Number r' = N
                   ∧ is_loot_mark (Is_Loot_Hit r') = true ∧ is_na P = false)
            <-> (Player_Tag r = P ∧ Attack_Number r = N
                 ∧ is_loot_mark (Is_Loot_Hit r) = true ∧ is_na P = false)
                ∨ ∃ r', r' ∈ df ∧ Player_Tag r' = P ∧ Attack_Number r' = N
                        ∧ is_loot_mark (Is_Loot_Hit r') = true ∧ is_na P = false)
      as ->.
    { split.
      - intros (r' & [->|Hin]%elem_of_cons & Hr); [by left|]. right. by exists r'.
      - intros [Hr|(r' & Hin & Hr)]; [exists r; split; [left|done]|].
        exists r'. split; [by right|done]. }
    destruct (is_loot_mark (Is_Loot_Hit r)) eqn:Hm;
      [destruct (is_na (Player_Tag r)) eqn:Hna|].
    + split; [tauto|]. intros [?|[(HP & _ & _ & Hn)|?]]; [tauto| |tauto].
      rewrite <-HP in Hn. congruence.
    + destruct (decide (Player_Tag r = P)) as [HP|HP].
      * rewrite HP, lookup_insert_eq. simpl.
        rewrite elem_of_app, list_elem_of_singleton. rewrite HP in Hna.
        split; [intros [[?| ->]|?]; tauto|].
        intros [?|[(_ & <- & _)|?]]; tauto.
      * rewrite lookup_insert_ne by done. tauto.
    + split; [tauto|]. intros [?|[(_ & _ & ? & _)|?]]; [tauto|congruence|tauto].
Qed.

Lemma attack_is_loot_true loot P N :
  attack_is_loot loot P N = true <-> N ∈ default [] (loot !! P).
Proof.
  unfold attack_is_loot. destruct (loot !! P); simpl.
  - apply bool_decide_eq_true.
  - rewrite elem_of_nil. split; [done|tauto].
Qed.

(** What the read-back finds: the pairs of the stored sheet whose loot
    cell holds one of the accepted marks. *)
Lemma get_existing_loot_hits_spec st war_id df P N :
  find_sheet (sheet_name_of war_id) (sheets_of st) = Some df ->
  attack_is_loot (get_existing_loot_hits false st war_id) P N = true <->
  ∃ r, r ∈ df ∧ Player_Tag r = P ∧ Attack_Number r = N
       ∧ is_loot_mark (Is_Loot_Hit r) = true ∧ is_na P = false.
Proof.
  intros Hf. rewrite attack_is_loot_true. unfold get_existing_loot_hits.
  destruct st as [book|]; [|done]. simpl in Hf. rewrite Hf.
  rewrite loot_visit_fold, lookup_empty. simpl. rewrite elem_of_nil. tauto.
Qed.

(** No tag that is read back as [NaN] is found in the dict. *)
Lemma attack_is_loot_na raises st war_id P N :
  is_na P = true ->
  attack_is_loot (get_existing_loot_hits raises st war_id) P N = false.
Proof.
  intros Hna. apply Bool.not_true_is_false. rewrite attack_is_loot_true.
  assert (N ∉ default [] ((∅ : gmap string (list Z)) !! P)) as Hempty
    by (rewrite lookup_empty; apply not_elem_of_nil).
  unfold get_existing_loot_hits. destruct st as [book|]; [|done].
  destruct raises; [done|].
  destruct (find_sheet _ _) as [df|]; [|done].
  rewrite loot_visit_fold. intros [?|(r & _ & _ & _ & _ & ?)]; [done|congruence].
Qed.

Lemma state_not_notInWar_truthy w :
  default "notInWar" (state w) ≠ "notInWar" -> war_truthy w = true.
Proof.
  unfold war_truthy. destruct (state w); [done|]. simpl. congruence.
Qed.

(** A run that reaches the save: the war is neither absent nor a league
    war, and the existence check does not report it complete. *)
Lemma war_update_saves o st w :
  default "notInWar" (state w) ≠ "notInWar" ->
  is_cwl_war w = false ->
  snd (war_already_saved (saved_read_raises o) st (get_war_id (now_str o) w)) = false ->
  ∃ wd,
    process_war o st w true = Some wd
    ∧ out_store (war_update o st w) = fst (save_and_rebuild o st wd)
    ∧ out_saved (war_update o st w) = [wd].
Proof.
  intros Hs Hcwl Hc. pose proof (state_not_notInWar_truthy w Hs) as Ht.
  unfold war_update. apply String.eqb_neq in Hs. rewrite Hs, Hcwl.
  unfold process_war. rewrite Ht. simpl. rewrite Hc. eauto.
Qed.

Lemma member_rows_nonempty w war_id loot m : member_rows w war_id loot m ≠ [].
Proof.
  unfold member_rows. destruct (default [] (m_attacks m)); simpl; done.
Qed.

Lemma war_details_nonempty w war_id loot :
  members_of w ≠ [] -> members_of w ≫= member_rows w war_id loot ≠ [].
Proof.
  destruct (members_of w) as [|m ms]; [done|]. intros _. simpl.
  pose proof (member_rows_nonempty w war_id loot m).
  destruct (member_rows w war_id loot m); [done|]. done.
Qed.

(** What the merge does when nothing goes wrong: on a re-fetch of a
    stored war that the existence check does not report complete, when the
    read-back of the stored sheet raises no error, every pair (player tag
    P, attack number N > 0) that the stored sheet marks as a loot hit and
    that the fresh snapshot still contains is marked Is Loot Hit = Yes in
    the sheet the run saves, provided the tag is read back as text and
    the sheet name is a timestamp like those of the workbook. *)
Lemma loot_hits_survive_refetch o c st w df P N :
  stamp_name (sheet_name_of (get_war_id (now_str o) w)) = true ->
  stamp_names st ->
  loot_read_raises o = false ->
  default "notInWar" (state w) ≠ "notInWar" ->
  is_cwl_war w = false ->
  find_sheet (sheet_name_of (get_war_id (now_str o) w)) (sheets_of st) = Some df ->
  snd (war_already_saved (saved_read_raises o) st (get_war_id (now_str o) w)) = false ->
  0 < N ->
  is_na P = false ->
  (∃ r, r ∈ df ∧ Player_Tag r = P ∧ Attack_Number r = N
        ∧ is_loot_mark (Is_Loot_Hit r) = true) ->
  (∃ m a, m ∈ members_of w ∧ default "" (m_tag m) = P
          ∧ default [] (m_attacks m) !! Z.to_nat (N - 1) = Some a) ->
  ∃ df',
    find_sheet (sheet_name_of (get_war_id (now_str o) w))
      (sheets_of (out_store (main o c st (Some w)))) = Some df'
    ∧ (∃ r, r ∈ df' ∧ Player_Tag r = P ∧ Attack_Number r = N)
    ∧ ∀ r, r ∈ df' -> Player_Tag r = P -> Attack_Number r = N ->
           Is_Loot_Hit r = CStr "Yes".
Proof.
  intros _ _ Ho Hs Hcwl Hf Hc HN Hna (r0 & Hr0 & HP0 & HN0 & Hmark)
    (m & a & Hm & Htag & Ha).
  destruct (war_update_saves o st w Hs Hcwl Hc) as (wd & Hp & Hst & _).
  apply process_war_Some in Hp as (loot & -> & ->). rewrite Ho in *.
  set (war_id := get_war_id (now_str o) w) in *.
  set (loot := get_existing_loot_hits false st war_id).
  assert (attack_is_loot loot P N = true) as Hloot.
  { apply (get_existing_loot_hits_spec st war_id df); [done|]. by exists r0. }
  exists (members_of w ≫= member_rows w war_id loot).
  rewrite main_store, (state_not_notInWar_truthy w Hs), Hst.
  split; [|split].
  - pose proof (save_and_rebuild_stored o st
             {| wd_war_id := war_id;
                wd_war_details := members_of w ≫= member_rows w war_id loot;
                wd_is_ended := is_war_ended w |}) as Hsaved.
    simpl in Hsaved. apply Hsaved.
    apply war_details_nonempty. intros Hnil. rewrite Hnil in Hm.
    by apply elem_of_nil in Hm.
  - exists (attack_row w war_id loot m (Z.of_nat (Z.to_nat (N - 1)) + 1) a).
    split; [|split].
    + apply list_elem_of_bind. exists m. split; [|done].
      apply elem_of_member_rows. left. eauto.
    + done.
    + simpl. lia.
  - intros r Hr HP Hnum.
    apply list_elem_of_bind in Hr as (m' & Hr & _).
    apply elem_of_member_rows in Hr as [(i & a' & _ & ->)|[_ ->]].
    + simpl in *. rewrite HP, Hnum, Hloot. done.
    + simpl in Hnum. lia.
Qed.

Lemma loot_hits_survive_refetch_witness :
  ∃ df',
    find_sheet "20240101T000000-000Z"
      (sheets_of (out_store (main quiet_io sample_clock marked_store (Some refetched_war))))
    = Some df'
    ∧ (∃ r, r ∈ df' ∧ Player_Tag r = "#A" ∧ Attack_Number r = 2)
    ∧ ∀ r, r ∈ df' -> Player_Tag r = "#A" -> Attack_Number r = 2 ->
           Is_Loot_Hit r = CStr "Yes".
Proof.
  apply (loot_hits_survive_refetch quiet_io sample_clock marked_store refetched_war
           [sample_row "20240101T000000-000Z" "No" "Ann" "#A" 1 3 100 (CStr "No");
            sample_row "20240101T000000-000Z" "No" "Ann" "#A" 2 2 80 (CStr "Yes")]
           "#A" 2).
  - reflexivity.
  - repeat constructor.
  - reflexivity.
  - simpl. discriminate.
  - reflexivity.
  - reflexivity.
  - reflexivity.
  - lia.
  - reflexivity.
  - exists (sample_row "20240101T000000-000Z" "No" "Ann" "#A" 2 2 80 (CStr "Yes")).
    split; [|repeat split]. right. left.
  - exists (sample_member "Ann" "#A" [sample_attack 3 100; sample_attack 2 80]),
      (sample_attack 2 80).
    split; [left|split; reflexivity].
Defined.

(** C2, the claim as worded fails: the stored sheet of a war in progress
    marks attack 2 of #A as a loot hit and the fresh snapshot has the same
    two attacks, but the read-back raises, the handler returns the empty
    dict, and the sheet the run saves marks that attack No. *)
Lemma C2_mark_lost_when_read_raises :
  (∃ r, r ∈ default [] (find_sheet "20240101T000000-000Z" (sheets_of marked_store))
        ∧ Player_Tag r = "#A" ∧ Attack_Number r = 2
        ∧ is_loot_mark (Is_Loot_Hit r) = true)
  ∧ snd (war_already_saved (saved_read_raises loot_failing_io) marked_store
           (get_war_id (now_str loot_failing_io) refetched_war)) = false
  ∧ (fun r => (Player_Tag r, Attack_Number r, Is_Loot_Hit r))
      <$> default []
            (find_sheet "20240101T000000-000Z"
               (sheets_of (out_store (main loot_failing_io sample_clock marked_store
                                        (Some refetched_war)))))
    = [("#A", 1, CStr "No"); ("#A", 2, CStr "No")].
Proof.
  split; [|split; reflexivity].
  exists (sample_row "20240101T000000-000Z" "No" "Ann" "#A" 2 2 80 (CStr "Yes")).
  split; [|repeat split]. simpl. right. left.
Qed.



(** C3, the code against the claim: the workbook holds a complete war
    with attack 2 of #A marked as a loot hit, and [war_already_saved]
    reports it complete when its read succeeds.  In a later run the read
    of the check raises; the handler answers (False, False), the guard of
    [main] lets the save through, and the stored records of the complete
    war are replaced: the mark is gone. *)
Theorem C3_complete_war_altered_when_check_raises :
  war_already_saved false complete_marked_store
    (get_war_id (now_str failing_io) ended_war) = (true, true)
  ∧ war_already_saved (saved_read_raises failing_io) complete_marked_store
      (get_war_id (now_str failing_io) ended_war) = (false, false)
  ∧ length (out_saved (main failing_io sample_clock complete_marked_store
                         (Some ended_war))) = 1%nat
  ∧ (fun r => (Attack_Number r, War_Complete r, Is_Loot_Hit r))
      <$> default [] (find_sheet "20240101T000000-000Z" (sheets_of complete_marked_store))
    = [(1, "Yes", CStr "No"); (2, "Yes", CStr "Yes")]
  ∧ (fun r => (Attack_Number r, War_Complete r, Is_Loot_Hit r))
      <$> default []
            (find_sheet "20240101T000000-000Z"
               (sheets_of (out_store (main failing_io sample_clock complete_marked_store
                                        (Some ended_war)))))
    = [(1, "Yes", CStr "No"); (2, "Yes", CStr "No")].
Proof. repeat split; reflexivity. Qed.

(** ** Sorting, grouping and merging *)

Section sort_values_facts.
Context {A : Type} (le : A -> A -> bool).

Lemma sort_insert_Permutation x l : sort_insert le x l ≡ₚ x :: l.
Proof.
  induction l as [|y l IH]; simpl; [done|].
  destruct (le x y); [done|]. rewrite IH. apply Permutation_swap.
Qed.

Lemma sort_values_Permutation l : sort_values le l ≡ₚ l.
Proof.
  induction l as [|x l IH]; simpl; [done|].
  unfold sort_values in *. simpl. by rewrite sort_insert_Permutation, IH.
Qed.

Lemma elem_of_sort_values x l : x ∈ sort_values le l <-> x ∈ l.
Proof. by rewrite sort_values_Permutation. Qed.

Lemma sort_values_nil l : sort_values le l = [] <-> l = [].
Proof.
  split; [|by intros ->].
  intros H. apply Permutation_nil_r. by rewrite <-H, sort_values_Permutation.
Qed.

Hypothesis le_total : ∀ x y, le x y = false -> le y x = true.

Lemma sort_insert_HdRel x y l :
  le y x = true ->
  HdRel (fun a b => le a b = true) y l ->
  HdRel (fun a b => le a b = true) y (sort_insert le x l).
Proof.
  intros Hyx Hl. destruct l as [|z l]; simpl; [by constructor|].
  destruct (le x z); constructor; [done|]. by inversion Hl.
Qed.

Lemma sort_insert_Sorted x l :
  Sorted (fun a b => le a b = true) l ->
  Sorted (fun a b => le a b = true) (sort_insert le x l).
Proof.
  induction 1 as [|y l Hs IH Hhd]; simpl.
  - repeat constructor.
  - destruct (le x y) eqn:Hxy.
    + constructor; [by constructor|by constructor].
    + constructor; [done|]. apply sort_insert_HdRel; [by apply le_total|done].
Qed.

Lemma sort_values_Sorted l : Sorted (fun a b => le a b = true) (sort_values le l).
Proof.
  induction l as [|x l IH]; [constructor|].
  unfold sort_values in *. simpl. by apply sort_insert_Sorted.
Qed.
End sort_values_facts.

Section drop_duplicates_facts.
Context {A : Type} `{EqDecision A}.

Lemma elem_of_drop_duplicates (x : A) l : x ∈ drop_duplicates l <-> x ∈ l.
Proof.
  induction l as [|y l IH]; simpl; [done|].
  rewrite !elem_of_cons, list_elem_of_filter, IH.
  destruct (decide (x = y)); tauto.
Qed.

Lemma NoDup_drop_duplicates (l : list A) : NoDup (drop_duplicates l).
Proof.
  induction l as [|y l IH]; simpl; [constructor|].
  constructor.
  - rewrite list_elem_of_filter. tauto.
  - by apply NoDup_filter.
Qed.
End drop_duplicates_facts.

Lemma assoc_fmap_keys {V} (G : key -> V) (ks : list key) (k : key) :
  assoc k ((fun k' => (k', G k')) <$> ks)
  = if decide (k ∈ ks) then Some (G k) else None.
Proof.
  induction ks as [|k' ks IH].
  - destruct (decide (k ∈ [])) as [[]%elem_of_nil|]. done.
  - rewrite fmap_cons. cbn [assoc].
    destruct (decide (k' = k)) as [->|Hne].
    + destruct (decide (k ∈ k :: ks)) as [|Hn]; [done|]. destruct Hn. left.
    + rewrite IH.
      destruct (decide (k ∈ ks)) as [Hin|Hin], (decide (k ∈ k' :: ks)) as [Hin'|Hin'];
        try done.
      * destruct Hin'. by right.
      * apply elem_of_cons in Hin' as [?|?]; congruence.
Qed.

Section groupby_facts.
Context {A V : Type} (key_of : A -> key) (F : list A -> V).

Lemma groupby_keys (df : list A) :
  (fst <$> groupby key_of df)
  = sort_values key_le
      (drop_duplicates (filter (fun k => na_key k = false) (key_of <$> df))).
Proof.
  unfold groupby. rewrite <-list_fmap_compose. simpl. apply list_fmap_id.
Qed.

Lemma elem_of_groupby_keys (df : list A) (k : key) :
  k ∈ fst <$> groupby key_of df <->
  na_key k = false ∧ ∃ r, r ∈ df ∧ key_of r = k.
Proof.
  rewrite groupby_keys, elem_of_sort_values, elem_of_drop_duplicates,
    list_elem_of_filter, list_elem_of_fmap.
  split; intros (? & r & ? & ?); (split; [done|]); by exists r.
Qed.

Lemma NoDup_groupby_keys (df : list A) : NoDup (fst <$> groupby key_of df).
Proof.
  rewrite groupby_keys, sort_values_Permutation. apply NoDup_drop_duplicates.
Qed.

Lemma groupby_nil (df : list A) :
  groupby key_of df = [] <-> ∀ r, r ∈ df -> na_key (key_of r) = true.
Proof.
  split.
  - intros Hnil r Hr. destruct (na_key (key_of r)) eqn:E; [done|]. exfalso.
    assert (key_of r ∈ fst <$> groupby key_of df) as Hin
      by (apply elem_of_groupby_keys; split; [done|by exists r]).
    rewrite Hnil in Hin. by apply elem_of_nil in Hin.
  - intros Hall. destruct (groupby key_of df) as [|g gs] eqn:E; [done|]. exfalso.
    assert (fst g ∈ fst <$> groupby key_of df) as Hin by (rewrite E; left).
    apply elem_of_groupby_keys in Hin as (Hna & r & Hr & Hk).
    rewrite <-Hk, (Hall r Hr) in Hna. done.
Qed.

(** The value a left merge finds for a key in an aggregated frame. *)
Lemma assoc_groupby (df : list A) (k : key) :
  assoc k ((fun g => (fst g, F (snd g))) <$> groupby key_of df)
  = if na_key k then None
    else if decide (k ∈ key_of <$> df)
         then Some (F (filter (fun r => key_of r = k) df))
         else None.
Proof.
  unfold groupby. rewrite <-list_fmap_compose.
  change ((fun g : key * list A => (g.1, F g.2))
            ∘ (fun k0 => (k0, filter (fun r => key_of r = k0) df)))
    with (fun k0 => (k0, F (filter (fun r => key_of r = k0) df))).
  rewrite (assoc_fmap_keys (fun k0 => F (filter (fun r => key_of r = k0) df))).
  destruct (decide (k ∈ sort_values _ _)) as [Hin|Hin];
    rewrite elem_of_sort_values, elem_of_drop_duplicates, list_elem_of_filter in Hin.
  - destruct Hin as [-> Hin]. by rewrite decide_True.
  - destruct (na_key k); [done|]. rewrite decide_False; [done|]. tauto.
Qed.
End groupby_facts.

(** ** The aggregator *)

(** Neither quotient is taken with a zero denominator. *)
Lemma three_star_rate_returns c three total :
  three_star_rate c three total = Some (rate_value c three total).
Proof.
  unfold three_star_rate, rate_value, quotient.
  destruct (Z.ltb_spec 0 total) as [Hpos|Hle]; [|done].
  destruct (Z.eqb_spec total 0); [lia|done].
Qed.

Lemma avg_stars_per_attack_returns c stars total :
  avg_stars_per_attack c stars total = Some (avg_value c stars total).
Proof.
  unfold avg_stars_per_attack, avg_value, quotient.
  destruct (Z.ltb_spec 0 total) as [Hpos|Hle]; [|done].
  destruct (Z.eqb_spec total 0); [lia|done].
Qed.

Lemma player_stat_of_returns c all missed p :
  player_stat_of c all missed p = Some (stat_row c all missed p).
Proof.
  unfold player_stat_of. rewrite three_star_rate_returns. simpl.
  rewrite avg_stars_per_attack_returns. done.
Qed.

Lemma mapM_total {A B} (f : A -> option B) (g : A -> B) (l : list A) :
  (∀ x, f x = Some (g x)) -> mapM f l = Some (g <$> l).
Proof.
  intros Hf. induction l as [|x l IH]; [done|].
  simpl. rewrite Hf. simpl. rewrite IH. done.
Qed.

Lemma player_stats_returns c all missed :
  player_stats c all missed = Some (stat_row c all missed <$> war_participation all).
Proof. apply mapM_total, player_stat_of_returns. Qed.


Lemma not_elem_of_filter_nil {A} (P : A -> Prop) `{∀ x, Decision (P x)} (l : list A) :
  (∀ x, x ∈ l -> ¬ P x) -> filter P l = [].
Proof.
  intros Hn. induction l as [|x l IH]; [done|].
  rewrite filter_cons_False by (apply Hn; left).
  apply IH. intros y Hy. apply Hn. by right.
Qed.


(** The missed-hit step returns when the counts have a group, and raises
    otherwise. *)
Lemma missed_stats_Some all :
  has_missed_row all -> missed_stats all = Some (missed_table all).
Proof.
  intros (r & Hr & Hm & Hna). unfold missed_stats, missed_table.
  destruct (groupby row_key (missed_attacks all)) as [|g gs] eqn:E; [|done].
  exfalso. pose proof (proj1 (groupby_nil row_key (missed_attacks all)) E r) as Hn.
  rewrite Hn in Hna; [done|]. by apply list_elem_of_filter.
Qed.

Lemma missed_stats_None all :
  ¬ has_missed_row all -> missed_stats all = None.
Proof.
  intros Hno. unfold missed_stats.
  destruct (groupby row_key (missed_attacks all)) as [|g gs] eqn:E; [done|].
  exfalso. assert (fst g ∈ fst <$> groupby row_key (missed_attacks all)) as Hin
    by (rewrite E; left).
  apply elem_of_groupby_keys in Hin as (Hna & r & Hr & Hk).
  apply list_elem_of_filter in Hr as [Hm Hr].
  apply Hno. exists r. rewrite Hk. done.
Qed.

Lemma missed_stats_cases all :
  (missed_stats all = None ∧ ¬ has_missed_row all)
  ∨ (missed_stats all = Some (missed_table all) ∧ has_missed_row all).
Proof.
  destruct (missed_stats all) as [t|] eqn:E.
  - right. unfold missed_stats in E.
    destruct (groupby row_key (missed_attacks all)) as [|g gs] eqn:Eg; [done|].
    assert (fst g ∈ fst <$> groupby row_key (missed_attacks all)) as Hin
      by (rewrite Eg; left).
    apply elem_of_groupby_keys in Hin as (Hna & r & Hr & Hk).
    apply list_elem_of_filter in Hr as [Hm Hr].
    assert (has_missed_row all) as Hhas by (exists r; rewrite Hk; done).
    split; [|done]. rewrite <-E. symmetry.
    rewrite <-(missed_stats_Some all Hhas). unfold missed_stats. by rewrite Eg.
  - left. split; [done|]. intros Hhas.
    rewrite (missed_stats_Some all Hhas) in E. done.
Qed.

(** [Missed Hits] after the merge: [count_missed] over all the player's
    missed and sentinel rows, of every war together. *)
Lemma missed_hits_count all k :
  na_key k = false ->
  default 0 (assoc k (missed_table all))
  = count_missed (filter (fun r => row_key r = k) (missed_attacks all)).
Proof.
  intros Hna. unfold missed_table. rewrite (assoc_groupby row_key count_missed), Hna.
  destruct (decide (k ∈ _)) as [Hin|Hin]; [done|].
  rewrite not_elem_of_filter_nil; [done|].
  intros r Hr Hk. apply Hin, list_elem_of_fmap. by exists r.
Qed.

(** One sentinel row, in whichever war, fixes the player's count at 2. *)
Lemma missed_hits_with_sentinel all k :
  na_key k = false ->
  (∃ r, r ∈ all ∧ row_key r = k ∧ Attack_Number r = 0) ->
  default 0 (assoc k (missed_table all)) = 2.
Proof.
  intros Hna (r & Hr & Hk & Hn). rewrite missed_hits_count by done.
  unfold count_missed.
  destruct (existsb _ _) eqn:E; [done|]. exfalso.
  assert (existsb (fun r => (Attack_Number r =? 0)%Z)
            (filter (fun r => row_key r = k) (missed_attacks all)) = true) as Ht;
    [|congruence].
  apply existsb_exists. exists r. split; [|by apply Z.eqb_eq].
  apply list_elem_of_In, list_elem_of_filter. split; [done|].
  apply list_elem_of_filter. split; [|done].
  unfold is_missed_attack. rewrite Hn. apply orb_true_r.
Qed.

(** What a call comes to, by the rows of the filtered set. *)
Lemma leaderboard_of_returns c all :
  has_missed_row all ->
  combined_df all ≠ [] ->
  leaderboard_of c all
  = Returned (Some (sort_values leaderboard_le (leaderboard_frame c all))).
Proof.
  intros Hm Hc. unfold leaderboard_of, leaderboard_frame.
  rewrite (missed_stats_Some all Hm), player_stats_returns.
  destruct all as [|r all]; [by destruct Hm as (? & ?%elem_of_nil & _)|].
  by destruct (combined_df (r :: all)).
Qed.

Lemma leaderboard_of_raises c all :
  all ≠ [] -> ¬ has_missed_row all -> leaderboard_of c all = Raised.
Proof.
  intros Hall Hm. unfold leaderboard_of. rewrite (missed_stats_None all Hm).
  by destruct all.
Qed.

Lemma leaderboard_of_Some c all lb :
  leaderboard_of c all = Returned (Some lb) ->
  has_missed_row all
  ∧ combined_df all ≠ []
  ∧ lb = sort_values leaderboard_le (leaderboard_frame c all).
Proof.
  intros Hlb. destruct (missed_stats_cases all) as [[Hn _]|[_ Hm]].
  - unfold leaderboard_of in Hlb. rewrite Hn in Hlb. by destruct all.
  - split; [done|].
    assert (combined_df all ≠ []) as Hc.
    { intros Hc. unfold leaderboard_of in Hlb. rewrite Hc in Hlb.
      destruct all; [done|]. by destruct (missed_stats _). }
    split; [done|]. rewrite (leaderboard_of_returns c all Hm Hc) in Hlb. congruence.
Qed.



Global Instance ranks_before_trans : Transitive ranks_before.
Proof. intros a b c. unfold ranks_before. lia. Qed.



(** ** The printed rate and the sort key *)

Lemma read_digits_app s1 s2 : ∀ acc,
  read_digits acc (s1 +:+ s2) = read_digits (read_digits acc s1) s2.
Proof.
  induction s1 as [|ch s1 IH]; intros acc; simpl; [done|].
  destruct (digit_of ch); apply IH.
Qed.

Lemma digit_of_pretty_N_char d :
  (d < 10)%N -> digit_of (pretty_N_char d) = Some (Z.of_N d).
Proof.
  intros Hd.
  assert (d = 0 ∨ d = 1 ∨ d = 2 ∨ d = 3 ∨ d = 4 ∨ d = 5 ∨ d = 6 ∨ d = 7
          ∨ d = 8 ∨ d = 9)%N as Hcases by lia.
  repeat (destruct Hcases as [-> | Hcases]; [reflexivity|]). by subst.
Qed.

Lemma read_digits_pretty_N_go x :
  ∃ k, 0 <= k ∧ ∀ acc s,
    read_digits acc (pretty_N_go x s) = read_digits (acc * 10 ^ k + Z.of_N x) s.
Proof.
  induction (N.lt_wf_0 x) as [x _ IH].
  destruct (decide (x = 0)%N) as [->|Hx].
  - exists 0. split; [done|]. intros acc s. rewrite pretty_N_go_0. f_equal. lia.
  - destruct (IH (x `div` 10)%N) as (k & Hk & Hread).
    { apply N.div_lt; lia. }
    exists (k + 1). split; [lia|]. intros acc s.
    rewrite pretty_N_go_step by lia. rewrite Hread. simpl.
    rewrite digit_of_pretty_N_char by (apply N.mod_lt; lia).
    f_equal. rewrite Z.pow_add_r by lia.
    rewrite N2Z.inj_div, N2Z.inj_mod. change (Z.of_N 10) with 10.
    pose proof (Z.div_mod (Z.of_N x) 10). lia.
Qed.

Lemma read_digits_pretty_nonneg z :
  0 <= z -> ∃ k, 0 <= k ∧ ∀ acc, read_digits acc (pretty z) = acc * 10 ^ k + z.
Proof.
  intros Hz. destruct z as [|p|p]; [| |lia].
  - exists 1. split; [lia|]. intros acc.
    change (read_digits acc (pretty 0)) with (10 * acc + 0). lia.
  - destruct (read_digits_pretty_N_go (N.pos p)) as (k & Hk & Hread).
    exists k. split; [done|]. intros acc.
    change (pretty (Z.pos p)) with (pretty_N_go (N.pos p) "").
    rewrite Hread. done.
Qed.

Lemma read_digits_pretty_digit d acc :
  0 <= d < 10 -> read_digits acc (pretty d) = 10 * acc + d.
Proof.
  intros Hd.
  assert (d = 0 ∨ d = 1 ∨ d = 2 ∨ d = 3 ∨ d = 4 ∨ d = 5 ∨ d = 6 ∨ d = 7
          ∨ d = 8 ∨ d = 9) as Hcases by lia.
  repeat (destruct Hcases as [-> | Hcases]; [reflexivity|]). by subst.
Qed.

Lemma read_digits_format_rate t : 0 <= t -> read_digits 0 (format_rate t) = t.
Proof.
  intros Ht. unfold format_rate.
  destruct (read_digits_pretty_nonneg (t / 10)) as (k & Hk & Hread).
  { apply Z.div_pos; lia. }
  rewrite !read_digits_app, Hread.
  rewrite read_digits_pretty_digit by (apply Z.mod_pos_bound; lia).
  simpl. pose proof (Z.div_mod t 10). lia.
Qed.

(** The sort key of an entry whose rate is printed from a number of
    tenths is that number: sorting by [_sort_rate] is sorting by the
    printed rate. *)
Lemma sort_rate_format_rate e t :
  Three_Star_Rate e = format_rate t -> 0 <= t -> sort_rate e = t.
Proof. intros He Ht. unfold sort_rate. rewrite He. by apply read_digits_format_rate. Qed.

Lemma sort_rate_zero e : Three_Star_Rate e = "0.0%" -> sort_rate e = 0.
Proof. intros He. unfold sort_rate. by rewrite He. Qed.

(** ** The leaderboard claims *)






(** C8: a player whose total-attacks is 0 gets the three-star rate "0.0%"
    and the average 0.0, in the frame of every leaderboard that is
    returned; neither quotient is ever taken with a zero denominator. *)
Theorem C8_zero_attacks_rate c :
  (∀ n d, three_star_rate c n d ≠ None ∧ avg_stars_per_attack c n d ≠ None)
  ∧ (∀ all missed, ∃ stats,
       player_stats c all missed = Some stats
       ∧ Forall (fun p => ps_Total_Attacks p = 0 ->
                          ps_3_Star_Rate p = "0.0%"
                          ∧ ps_Avg_Stars_Per_Attack p = 0%Q) stats)
  ∧ (∀ all lb, leaderboard_of c all = Returned (Some lb) ->
       ∃ missed stats,
         missed_stats all = Some missed
         ∧ player_stats c all missed = Some stats
         ∧ lb ≡ₚ output_columns <$> stats).
Proof.
  split; [|split].
  - intros n d. by rewrite three_star_rate_returns, avg_stars_per_attack_returns.
  - intros all missed. exists (stat_row c all missed <$> war_participation all).
    split; [apply player_stats_returns|].
    apply Forall_forall. intros p (x & -> & _)%list_elem_of_fmap. simpl.
    intros Hz. unfold rate_value, avg_value. by rewrite Hz.
  - intros all lb Hlb. apply leaderboard_of_Some in Hlb as (Hm & _ & ->).
    exists (missed_table all),
      (stat_row c all (missed_table all) <$> war_participation all).
    split; [by apply missed_stats_Some|]. split; [apply player_stats_returns|].
    apply sort_values_Permutation.
Qed.

Lemma C8_zero_attacks_rate_witness :
  ∃ lb,
    leaderboard_of sample_clock
      (all_attacks_df quiet_io sample_clock None two_players_book)
    = Returned (Some lb)
    ∧ (fun e => (Player_Name' e, Three_Star_Rate e, Avg_Stars_Per_Attack e)) <$> lb
      = [("Ann", "50.0%", Qmake 250 100); ("Bob", "0.0%", 0%Q)]
    ∧ ∃ missed stats,
        missed_stats (all_attacks_df quiet_io sample_clock None two_players_book)
        = Some missed
        ∧ player_stats sample_clock
            (all_attacks_df quiet_io sample_clock None two_players_book) missed
          = Some stats
        ∧ lb ≡ₚ output_columns <$> stats.
Proof.
  eexists. split; [vm_compute; reflexivity|]. split; [vm_compute; reflexivity|].
  exact (proj2 (proj2 (C8_zero_attacks_rate sample_clock))
           (all_attacks_df quiet_io sample_clock None two_players_book) _ eq_refl).
Defined.

(** C1, the code against the claim: Ann has a sentinel row in each of the
    complete wars W1 and W2.  The specification's rule gives her 2 + 2 = 4
    missed hits; [count_missed] runs once over her rows of both wars
    ([missed_hits_count]) and the leaderboard shows 2, as it does for any
    player with a sentinel row ([missed_hits_with_sentinel]). *)
Theorem C1_missed_hits_are_not_per_war :
  (fun e => (Player_Name' e, Missed_Hits e))
    <$> default []
          (match calculate_leaderboard quiet_io sample_clock (Some two_absences_book) None
           with
           | Returned lb => lb
           | Raised => None
           end)
  = [("Bob", 0); ("Ann", 2)]
  ∧ spec_missed_hits (all_attacks_df quiet_io sample_clock None two_absences_book)
      ("Ann", "#A") = 4.
Proof. split; vm_compute; reflexivity. Qed.

(** ** The roster counter *)

Lemma roster_visit_participated m r tag :
  participated (roster_visit m r) tag
  = participated m tag
    + (if decide (Player_Tag r = tag ∧ 0 < Attack_Number r) then 1 else 0).
Proof.
  unfold participated, roster_visit.
  destruct (decide (Player_Tag r = tag)) as [<-|Hne].
  - rewrite lookup_alter_eq.
    destruct (m !! Player_Tag r) as [e|] eqn:Hm;
      destruct (Z.ltb_spec 0 (Attack_Number r)).
    + rewrite lookup_alter_eq, Hm. simpl. rewrite decide_True by done.
      by destruct (_ <? _).
    + rewrite Hm. simpl. rewrite decide_False by lia.
      destruct (_ <? _); simpl; lia.
    + rewrite lookup_alter_eq, lookup_insert_eq. simpl. rewrite decide_True by done.
      by destruct (_ <? _).
    + rewrite lookup_insert_eq. simpl. rewrite decide_False by lia.
      destruct (_ <? _); simpl; lia.
  - rewrite decide_False by tauto. rewrite lookup_alter_ne by done.
    destruct (0 <? Attack_Number r).
    + rewrite lookup_alter_ne by done.
      destruct (m !! Player_Tag r); [lia|]. rewrite lookup_insert_ne by done. lia.
    + destruct (m !! Player_Tag r); [lia|]. rewrite lookup_insert_ne by done. lia.
Qed.

Lemma roster_visit_keyed m r : keyed_by_tag m -> keyed_by_tag (roster_visit m r).
Proof.
  intros Hm tag e. unfold roster_visit.
  set (m1 := match m !! Player_Tag r with Some _ => m | None => _ end).
  assert (keyed_by_tag m1) as H1.
  { subst m1. destruct (m !! Player_Tag r) eqn:E; [done|].
    intros t e'. destruct (decide (Player_Tag r = t)) as [<-|Hne].
    - rewrite lookup_insert_eq. by intros [= <-].
    - rewrite lookup_insert_ne by done. apply Hm. }
  set (m2 := if 0 <? Attack_Number r then _ else m1).
  assert (keyed_by_tag m2) as H2.
  { subst m2. destruct (0 <? Attack_Number r); [|done].
    intros t e'. destruct (decide (Player_Tag r = t)) as [<-|Hne].
    - rewrite lookup_alter_eq. destruct (m1 !! Player_Tag r) as [e0|] eqn:E; [|done].
      simpl. intros [= <-]. simpl. exact (H1 _ _ E).
    - rewrite lookup_alter_ne by done. apply H1. }
  destruct (decide (Player_Tag r = tag)) as [<-|Hne].
  - rewrite lookup_alter_eq. destruct (m2 !! Player_Tag r) as [e0|] eqn:E; [|done].
    simpl. intros [= <-].
    destruct (ro_Last_Seen_TH e0 <? Town_Hall r); simpl; exact (H2 _ _ E).
  - rewrite lookup_alter_ne by done. apply H2.
Qed.

Lemma roster_rows_participated rows tag : ∀ m,
  participated (foldl roster_visit m rows) tag = participated m tag + attack_rows tag rows.
Proof.
  induction rows as [|r rows IH]; intros m; simpl.
  - unfold attack_rows. simpl. lia.
  - rewrite IH, roster_visit_participated. unfold attack_rows.
    rewrite filter_cons. destruct (decide _); simpl length; lia.
Qed.

Lemma roster_rows_keyed rows : ∀ m,
  keyed_by_tag m -> keyed_by_tag (foldl roster_visit m rows).
Proof.
  induction rows as [|r rows IH]; intros m Hm; simpl; [done|].
  by apply IH, roster_visit_keyed.
Qed.

Lemma roster_scan_participated o sheets tag : ∀ m,
  (∀ name, sheet_read_raises o name = false) ->
  participated (foldl (roster_scan_sheet o) m sheets) tag
  = participated m tag + attack_rows tag (concat (snd <$> sheets)).
Proof.
  induction sheets as [|s sheets IH]; intros m Ho.
  - unfold attack_rows. simpl. lia.
  - rewrite fmap_cons. cbn [foldl concat].
    rewrite IH by done. unfold roster_scan_sheet. rewrite Ho.
    rewrite roster_rows_participated. unfold attack_rows.
    rewrite filter_app, length_app. lia.
Qed.

Lemma roster_scan_keyed o sheets : ∀ m,
  keyed_by_tag m -> keyed_by_tag (foldl (roster_scan_sheet o) m sheets).
Proof.
  induction sheets as [|s sheets IH]; intros m Hm; simpl; [done|].
  apply IH. unfold roster_scan_sheet. destruct (sheet_read_raises o s.1); [done|].
  by apply roster_rows_keyed.
Qed.

(** When every sheet reads, the counter the roster shows for a player is
    the number of that player's rows with an attack number above zero,
    over all the war sheets. *)
Lemma roster_view_wars_participated o book e :
  (∀ name, sheet_read_raises o name = false) ->
  e ∈ roster_view o book ->
  ro_Wars_Participated e
  = attack_rows (ro_Player_Tag e) (concat (snd <$> war_sheets book)).
Proof.
  intros Ho He. unfold roster_view in He.
  apply elem_of_sort_values, list_elem_of_fmap in He as (e1 & -> & He0).
  apply list_elem_of_omap in He0 as (tag & _ & Hin). simpl.
  assert (keyed_by_tag (roster_scan o book)) as Hk.
  { apply roster_scan_keyed. intros t e'. by rewrite lookup_empty. }
  rewrite (Hk _ _ Hin).
  pose proof (roster_scan_participated o (war_sheets book) tag ∅ Ho) as Hp.
  unfold roster_scan in Hin. unfold participated in Hp.
  rewrite Hin, lookup_empty in Hp. simpl in Hp. lia.
Qed.

(** C4, the code against the claim: Ann made two attacks in the only
    stored war, and the rebuilt roster counts 2 wars participated for her,
    out of 1 total war; the counter is the number of her attack rows
    ([roster_view_wars_participated]). *)
Theorem C4_wars_participated_counts_attacks :
  (fun e => (ro_Player_Tag e, ro_Total_Wars e, ro_Wars_Participated e))
    <$> roster_view quiet_io two_players_book
  = [("#A", 1, 2); ("#B", 1, 0)].
Proof. vm_compute. reflexivity. Qed.

(** * Further properties of the code *)

(** ** Tags, addresses and identifiers *)

(** X1: [format_tag] puts one '#' in front of a tag that lacks it and
    leaves a tag that has it alone: its result starts with '#', and
    formatting twice is formatting once. *)
Theorem X1_format_tag_idempotent tag :
  starts_with_hash (format_tag tag) = true
  ∧ format_tag (format_tag tag) = format_tag tag
  ∧ (format_tag tag = tag ∨ format_tag tag = String "#" tag).
Proof.
  unfold format_tag. destruct (starts_with_hash tag) eqn:E.
  - rewrite E. auto.
  - simpl. auto.
Qed.

Lemma list_ascii_of_string_app s1 s2 :
  list_ascii_of_string (s1 +:+ s2) = list_ascii_of_string s1 ++ list_ascii_of_string s2.
Proof. induction s1 as [|c s1 IH]; simpl; [done|]. by rewrite IH. Qed.

Lemma replace_hash_no_hash s :
  Forall (fun c => c ≠ "#"%char) (list_ascii_of_string (replace_hash s)).
Proof.
  induction s as [|c s IH]; simpl; [constructor|].
  destruct (Ascii.eqb_spec c "#") as [->|Hne].
  - rewrite list_ascii_of_string_app. apply Forall_app. split; [|done].
    repeat constructor; discriminate.
  - simpl. by constructor.
Qed.

(** X2: the address requested for the current war holds no '#', whatever
    the configured clan tag: every '#' of the formatted tag is sent as
    "%23". *)
Theorem X2_currentwar_url_has_no_hash CLAN_TAG :
  Forall (fun c => c ≠ "#"%char) (list_ascii_of_string (currentwar_url CLAN_TAG)).
Proof.
  unfold currentwar_url. rewrite !list_ascii_of_string_app.
  repeat (apply Forall_app; split); try apply replace_hash_no_hash;
    simpl; repeat constructor; discriminate.
Qed.

Lemma list_ascii_of_replace_char old new s :
  list_ascii_of_string (replace_char old new s)
  = map (fun c => if Ascii.eqb c old then new else c) (list_ascii_of_string s).
Proof. unfold replace_char. apply list_ascii_of_string_of_list_ascii. Qed.

Lemma string_length_chars s : String.length s = length (list_ascii_of_string s).
Proof. induction s as [|c s IH]; simpl; [done|]. by rewrite IH. Qed.

(** X3: a war identifier holds neither ':' nor '.', and is as long as
    the timestamp it comes from, so that two timestamps of one length
    give identifiers of one length. *)
Theorem X3_war_id_has_no_colon_or_period now w :
  Forall (fun c => c ≠ ":"%char ∧ c ≠ "."%char)
         (list_ascii_of_string (get_war_id now w))
  ∧ ∃ stamp,
      (stamp = default "" (preparationStartTime w)
       ∨ stamp = default now (endTime w))
      ∧ String.length (get_war_id now w) = String.length stamp.
Proof.
  unfold get_war_id.
  set (stamp := if String.eqb _ _ then _ else _). split.
  - rewrite !list_ascii_of_replace_char. apply Forall_forall. intros c Hc.
    apply list_elem_of_In, in_map_iff in Hc as (c1 & <- & Hc1).
    apply in_map_iff in Hc1 as (c0 & <- & _).
    destruct (Ascii.eqb_spec c0 ":") as [->|H0]; simpl.
    + split; discriminate.
    + destruct (Ascii.eqb_spec c0 ".") as [->|H1]; [split; discriminate|done].
  - exists stamp. split.
    + subst stamp. destruct (String.eqb _ _); auto.
    + rewrite !string_length_chars, !list_ascii_of_replace_char.
      by rewrite !length_map.
Qed.

(** X4: two snapshots that carry the same non-empty preparation start
    time get the same identifier, whatever else they hold and whenever
    they are taken. *)
Theorem X4_war_id_is_stable now now' w w' p :
  preparationStartTime w = Some p ->
  preparationStartTime w' = Some p ->
  p ≠ "" ->
  get_war_id now w = get_war_id now' w'.
Proof.
  intros Hw Hw' Hp. unfold get_war_id. rewrite Hw, Hw'. simpl.
  apply String.eqb_neq in Hp. by rewrite Hp.
Qed.

Lemma X4_war_id_is_stable_witness :
  get_war_id "1704067200.0" refetched_war = get_war_id "1704153600.5" ended_war.
Proof.
  apply (X4_war_id_is_stable _ _ refetched_war ended_war "20240101T000000.000Z").
  - reflexivity.
  - reflexivity.
  - discriminate.
Defined.

(** ** More on the normalizer *)

Lemma imap_index_only {A B} (g : nat -> B) (l : list A) :
  imap (fun i _ => g i) l = g <$> seq 0 (length l).
Proof.
  revert g. induction l as [|x l IH]; intros g; [done|].
  rewrite imap_cons.
  change (imap ((fun i (_ : A) => g i) ∘ S) l) with (imap (fun i (_ : A) => (g ∘ S) i) l).
  rewrite (IH (g ∘ S)). cbn [length seq]. rewrite fmap_cons. f_equal.
  by rewrite <-fmap_S_seq, <-list_fmap_compose.
Qed.

(** X5: the records of one member are numbered 1, 2, ..., n in the order
    of the member's attacks, or are the single record numbered 0 when the
    member has none; all of them carry the member's tag and name. *)
Theorem X5_member_rows_numbering w war_id loot m :
  Attack_Number <$> member_rows w war_id loot m
  = match default [] (m_attacks m) with
    | [] => [0]
    | a :: attacks => (fun i => Z.of_nat i + 1) <$> seq 0 (length (a :: attacks))
    end
  ∧ Forall (fun r => Player_Tag r = default "" (m_tag m)
                     ∧ Player_Name r = default "" (m_name m))
           (member_rows w war_id loot m).
Proof.
  split.
  - unfold member_rows. rewrite fmap_app, fmap_imap.
    destruct (default [] (m_attacks m)) as [|a attacks] eqn:E; [done|].
    rewrite app_nil_r.
    apply (imap_index_only (fun i => Z.of_nat i + 1) (a :: attacks)).
  - apply Forall_forall. intros r Hr.
    apply elem_of_member_rows in Hr as [(i & a & _ & ->)|[_ ->]]; done.
Qed.

Lemma yes_no_Yes b : yes_no b = "Yes" <-> b = true.
Proof. destruct b; simpl; split; congruence. Qed.

(** X6: in every record [process_war] emits, Is Missed is Yes exactly when
    the record has 0 stars and 0 destruction, Is Triple is Yes exactly
    when it has 3 stars, the two are never Yes together, and the War ID
    is the identifier returned with the records. *)
Theorem X6_record_flags o st w preserve :
  Forall (fun r =>
            (Is_Missed r = "Yes" <-> Stars r = 0 ∧ (Destruction r == 0)%Q)
            ∧ (Is_Triple r = "Yes" <-> Stars r = 3)
            ∧ ¬ (Is_Missed r = "Yes" ∧ Is_Triple r = "Yes")
            ∧ Some (War_ID r) = wd_war_id <$> process_war o st w preserve)
         (default [] (wd_war_details <$> process_war o st w preserve)).
Proof.
  destruct (process_war o st w preserve) as [wd|] eqn:Hp; [|constructor].
  apply process_war_Some in Hp as (loot & -> & _). simpl.
  apply Forall_forall. intros r Hr.
  apply list_elem_of_bind in Hr as (m & Hr & _).
  apply elem_of_member_rows in Hr as [(i & a & _ & ->)|[_ ->]]; simpl.
  - rewrite !yes_no_Yes, andb_true_iff, !Z.eqb_eq, Qeq_bool_iff.
    repeat split; try tauto. intros [[? _] ?]. lia.
  - repeat split; try done. intros [_ ?]. done.
Qed.

Lemma is_loot_mark_yes_no b : is_loot_mark (CStr (yes_no b)) = b.
Proof. by destruct b. Qed.

Lemma member_rows_ext w war_id loot loot' m :
  (∀ i a, default [] (m_attacks m) !! i = Some a ->
          attack_is_loot loot' (default "" (m_tag m)) (Z.of_nat i + 1)
          = attack_is_loot loot (default "" (m_tag m)) (Z.of_nat i + 1)) ->
  member_rows w war_id loot' m = member_rows w war_id loot m.
Proof.
  intros Hext. unfold member_rows. f_equal.
  apply imap_ext. intros i a Ha. unfold attack_row. by rewrite (Hext i a Ha).
Qed.

Lemma bind_member_rows_ext w war_id loot loot' members :
  (∀ m, m ∈ members -> member_rows w war_id loot' m = member_rows w war_id loot m) ->
  members ≫= member_rows w war_id loot' = members ≫= member_rows w war_id loot.
Proof.
  induction members as [|m members IH]; intros Hext; [done|].
  rewrite !bind_cons, IH.
  - by rewrite (Hext m) by left.
  - intros m' Hm'. apply Hext. by right.
Qed.

(** X7: fetching the same snapshot again after its records were saved
    yields the very same records, loot marks included, when the second
    read-back raises nothing and the second fetch makes the same
    identifier (the snapshot carries a timestamp, or the clock reads the
    same), for a sheet name that is a timestamp like those of the
    workbook: saving is a fixed point of the merge. *)
Theorem X7_refetch_is_stable o o' st w wd :
  loot_read_raises o' = false ->
  get_war_id (now_str o') w = get_war_id (now_str o) w ->
  stamp_name (sheet_name_of (get_war_id (now_str o) w)) = true ->
  stamp_names st ->
  process_war o st w true = Some wd ->
  process_war o' (fst (save_and_rebuild o st wd)) w true = Some wd.
Proof.
  intros Ho Hid _ _ Hp. pose proof Hp as Hp0.
  apply process_war_Some in Hp as (loot0 & -> & ->).
  set (war_id := get_war_id (now_str o) w) in *.
  set (loot := get_existing_loot_hits (loot_read_raises o) st war_id).
  set (wd := {| wd_war_id := war_id;
                wd_war_details := members_of w ≫= member_rows w war_id loot;
                wd_is_ended := is_war_ended w |}).
  assert (members_of w ≫= member_rows w war_id
            (get_existing_loot_hits false (fst (save_and_rebuild o st wd)) war_id)
          = members_of w ≫= member_rows w war_id loot) as Hrows.
  { apply bind_member_rows_ext. intros m Hm. apply member_rows_ext. intros i a Ha.
    assert (wd_war_details wd ≠ []) as Hne.
    { simpl. apply war_details_nonempty. intros Hnil. rewrite Hnil in Hm.
      by apply elem_of_nil in Hm. }
    pose proof (save_and_rebuild_stored o st wd Hne) as Hstored. simpl in Hstored.
    apply Bool.eq_iff_eq_true.
    rewrite (get_existing_loot_hits_spec _ war_id _ _ _ Hstored). split.
    - intros (r & Hr & HP & HN & Hmark & _).
      apply list_elem_of_bind in Hr as (m' & Hr & _).
      apply elem_of_member_rows in Hr as [(i' & a' & _ & ->)|[_ ->]]; [|done].
      cbn [attack_row Is_Loot_Hit Player_Tag Attack_Number] in Hmark, HP, HN.
      rewrite is_loot_mark_yes_no in Hmark. by rewrite <-HP, <-HN.
    - intros Hloot. exists (attack_row w war_id loot m (Z.of_nat i + 1) a).
      split; [|split; [done|split; [done|split]]].
      + apply list_elem_of_bind. exists m. split; [|done].
        apply elem_of_member_rows. left. eauto.
      + cbn [attack_row Is_Loot_Hit]. by rewrite is_loot_mark_yes_no.
      + destruct (is_na (default "" (m_tag m))) eqn:Hna; [|done].
        unfold loot in Hloot. by rewrite attack_is_loot_na in Hloot. }
  unfold process_war in *. destruct (war_truthy w); [|done].
  rewrite Ho, Hid. fold war_id. by rewrite Hrows.
Qed.

Lemma X7_refetch_is_stable_witness :
  ∃ wd,
    process_war quiet_io marked_store refetched_war true = Some wd
    ∧ (Is_Loot_Hit <$> wd_war_details wd) = [CStr "No"; CStr "Yes"]
    ∧ process_war later_io (fst (save_and_rebuild quiet_io marked_store wd))
        refetched_war true = Some wd.
Proof.
  eexists. split; [reflexivity|]. split; [reflexivity|].
  apply (X7_refetch_is_stable quiet_io later_io marked_store refetched_war).
  - reflexivity.
  - reflexivity.
  - reflexivity.
  - repeat constructor.
  - reflexivity.
Defined.

(** ** More on the store *)

(** X8: [war_already_saved] reports complete only for a war it also
    reports found, and, when its reads raise nothing, exactly when the
    stored sheet has a first row and that row says War Complete = Yes:
    the later rows are not looked at. *)
Theorem X8_complete_is_read_off_the_first_row raises st war_id :
  (snd (war_already_saved raises st war_id) = true ->
   fst (war_already_saved raises st war_id) = true)
  ∧ (snd (war_already_saved raises st war_id) = true <->
     raises = false
     ∧ ∃ r0 rest,
         find_sheet (sheet_name_of war_id) (sheets_of st) = Some (r0 :: rest)
         ∧ War_Complete r0 = "Yes").
Proof.
  unfold war_already_saved. destruct st as [book|]; simpl.
  - destruct raises; simpl.
    + split; [done|]. split; [done|]. by intros [? _].
    + destruct (find_sheet _ _) as [[|r0 rest]|]; simpl.
      * split; [done|]. split; [done|]. by intros (_ & ? & ? & ? & _).
      * split; [done|]. rewrite bool_decide_eq_true. split.
        -- intros Hc. split; [done|]. by exists r0, rest.
        -- by intros (_ & ? & ? & [= <- <-] & ?).
      * split; [done|]. split; [done|]. by intros (_ & ? & ? & ? & _).
  - split; [done|]. split; [done|]. by intros (_ & ? & ? & ? & _).
Qed.

Lemma X8_complete_is_read_off_the_first_row_witness :
  let st := sample_store
              [("W1", [sample_row "W1" "Yes" "Ann" "#A" 1 3 100 (CStr "No");
                       sample_row "W1" "No" "Bob" "#B" 1 2 80 (CStr "No")])] in
  snd (war_already_saved false st "W1") = true
  ∧ fst (war_already_saved false st "W1") = true.
Proof.
  intros st. split; [reflexivity|].
  exact (proj1 (X8_complete_is_read_off_the_first_row false st "W1") eq_refl).
Defined.

Lemma substring_0_length n : ∀ s,
  String.length (substring 0 n s) = Nat.min n (String.length s).
Proof. induction n as [|n IH]; intros [|c s]; simpl; [done..|]. by rewrite IH. Qed.

(** X9: a sheet name has at most 31 characters, so two war identifiers
    that agree on their first 31 characters share one sheet: the checks
    answer alike for both, and saving the one replaces what was stored
    for the other.  The sheet name is a timestamp, like those of the
    workbook. *)
Theorem X9_identifiers_collide_after_31_characters raises st id1 id2 wd :
  sheet_name_of id1 = sheet_name_of id2 ->
  wd_war_id wd = id2 ->
  wd_war_details wd ≠ [] ->
  stamp_name (sheet_name_of id1) = true ->
  stamp_names st ->
  (String.length (sheet_name_of id1) <= 31)%nat
  ∧ war_already_saved raises st id1 = war_already_saved raises st id2
  ∧ get_existing_loot_hits raises st id1 = get_existing_loot_hits raises st id2
  ∧ find_sheet (sheet_name_of id1) (sheets_of (fst (save_war_to_excel st wd)))
    = Some (wd_war_details wd).
Proof.
  intros Hname <- Hne _ _. split; [|split; [|split]].
  - unfold sheet_name_of. rewrite substring_0_length. lia.
  - unfold war_already_saved. by rewrite Hname.
  - unfold get_existing_loot_hits. by rewrite Hname.
  - rewrite save_war_to_excel_sheets, Hname by done.
    rewrite find_sheet_app, find_sheet_del_eq. simpl. by rewrite String.eqb_refl.
Qed.

Lemma X9_identifiers_collide_after_31_characters_witness :
  let id1 := "20240101T000000-000Z-0000000000-1" in
  let id2 := "20240101T000000-000Z-0000000000-2" in
  let st := sample_store [(sheet_name_of id1,
                           [sample_row id1 "No" "Ann" "#A" 1 3 100 (CStr "Yes")])] in
  let wd := {| wd_war_id := id2;
               wd_war_details := [sample_row id2 "No" "Bob" "#B" 1 1 30 (CStr "No")];
               wd_is_ended := false |} in
  id1 ≠ id2
  ∧ fst (war_already_saved false st id2) = true
  ∧ find_sheet (sheet_name_of id1) (sheets_of (fst (save_war_to_excel st wd)))
    = Some (wd_war_details wd).
Proof.
  intros id1 id2 st wd. split; [discriminate|]. split; [reflexivity|].
  assert (wd_war_details wd ≠ []) as Hne by (unfold wd; simpl; discriminate).
  assert (stamp_names st) as Hst by (repeat constructor).
  exact (proj2 (proj2 (proj2
    (X9_identifiers_collide_after_31_characters false st id1 id2 wd
       eq_refl eq_refl Hne eq_refl Hst)))).
Defined.

Lemma loot_marks_fold P df : ∀ acc,
  foldl loot_visit acc df !! P
  = if is_na P then acc !! P
    else match loot_marks P df with
         | [] => acc !! P
         | n :: ns => Some (default [] (acc !! P) ++ n :: ns)
         end.
Proof.
  unfold loot_marks. induction df as [|r df IH]; intros acc.
  - simpl. by destruct (is_na P).
  - cbn [foldl]. rewrite IH. rewrite filter_cons. unfold loot_visit.
    destruct (is_na P) eqn:HnaP.
    + destruct (is_loot_mark (Is_Loot_Hit r)); [|done].
      destruct (is_na (Player_Tag r)) eqn:Hna; [done|].
      rewrite lookup_insert_ne; [done|]. intros HP. congruence.
    + destruct (is_loot_mark (Is_Loot_Hit r)) eqn:Hm.
      * destruct (decide (Player_Tag r = P)) as [HP|HP].
        -- rewrite decide_True by (by split). rewrite HP, HnaP, lookup_insert_eq.
           rewrite fmap_cons. simpl.
           destruct (Attack_Number <$> filter _ df); simpl; [done|].
           by rewrite <-app_assoc.
        -- rewrite decide_False by tauto.
           destruct (is_na (Player_Tag r)); [done|]. by rewrite lookup_insert_ne.
      * rewrite decide_False; [done|]. intros [_ ?]. congruence.
Qed.

(** X10: the dict read back for a war maps each player tag to the attack
    numbers of that player's rows whose loot cell holds an accepted mark,
    in sheet order and with repetitions, and has no entry for a tag
    without such a row, nor for a tag that is read back as a missing
    value; for a war without a stored sheet it is empty. *)
Theorem X10_loot_hits_read_back st war_id P :
  get_existing_loot_hits false st war_id !! P
  = if is_na P then None
    else match loot_marks P
                 (default [] (find_sheet (sheet_name_of war_id) (sheets_of st)))
         with
         | [] => None
         | n :: ns => Some (n :: ns)
         end.
Proof.
  unfold get_existing_loot_hits. destruct st as [book|]; simpl;
    [|by destruct (is_na P)].
  destruct (find_sheet _ _) as [df|]; simpl; [|by destruct (is_na P)].
  rewrite loot_marks_fold, lookup_empty. destruct (is_na P); [done|].
  by destruct (loot_marks P df).
Qed.

Lemma del_sheet_names name l :
  fst <$> del_sheet name l = filter (fun n => n ≠ name) (fst <$> l).
Proof.
  unfold del_sheet. induction l as [|[n df] l IH]; [done|].
  rewrite fmap_cons, !filter_cons. simpl.
  destruct (decide (n ≠ name)); [rewrite fmap_cons|]; by rewrite IH.
Qed.

Lemma del_sheet_idem name l : del_sheet name (del_sheet name l) = del_sheet name l.
Proof.
  unfold del_sheet. induction l as [|[n df] l IH]; [done|].
  rewrite !filter_cons. simpl. destruct (decide (n ≠ name)); [|done].
  rewrite filter_cons. simpl. rewrite decide_True by done. by rewrite IH.
Qed.

Lemma del_sheet_absent name l : name ∉ fst <$> l -> del_sheet name l = l.
Proof.
  unfold del_sheet. induction l as [|[n df] l IH]; [done|].
  rewrite fmap_cons, not_elem_of_cons. simpl. intros [Hne Hin].
  rewrite filter_cons. simpl. rewrite decide_True by congruence. by rewrite IH.
Qed.

Lemma length_filter_ne_NoDup (x : string) l :
  NoDup l -> x ∈ l -> S (length (filter (fun n => n ≠ x) l)) = length l.
Proof.
  induction 1 as [|y l Hy Hnd IH]; [by intros ?%elem_of_nil|].
  rewrite elem_of_cons, filter_cons. intros [->|Hin].
  - rewrite decide_False by tauto. simpl. f_equal.
    clear IH Hnd. induction l as [|z l IH]; [done|].
    apply not_elem_of_cons in Hy as [? ?]. rewrite filter_cons.
    rewrite decide_True by congruence. simpl. f_equal. by apply IH.
  - rewrite decide_True by (intros ->; done). simpl. f_equal. by apply IH.
Qed.

(** X11: [save_war_to_excel] with no record to write returns False and
    leaves the workbook as it is; otherwise, for a sheet name that is a
    timestamp like those of the workbook, it returns True, the war's
    sheet then holds exactly the given records and is the last sheet,
    and every other sheet and the two derived sheets are as before. *)
Theorem X11_save_then_read st wd :
  (wd_war_details wd = [] -> save_war_to_excel st wd = (st, false))
  ∧ (wd_war_details wd ≠ [] ->
     stamp_name (sheet_name_of (wd_war_id wd)) = true ->
     stamp_names st ->
     snd (save_war_to_excel st wd) = true
     ∧ find_sheet (sheet_name_of (wd_war_id wd))
         (sheets_of (fst (save_war_to_excel st wd))) = Some (wd_war_details wd)
     ∧ last (sheets_of (fst (save_war_to_excel st wd)))
       = Some (sheet_name_of (wd_war_id wd), wd_war_details wd)
     ∧ (∀ n, n ≠ sheet_name_of (wd_war_id wd) ->
             find_sheet n (sheets_of (fst (save_war_to_excel st wd)))
             = find_sheet n (sheets_of st))
     ∧ (roster_sheet <$> fst (save_war_to_excel st wd))
       = Some (roster_sheet (default new_workbook st))
     ∧ (missed_hits_sheet <$> fst (save_war_to_excel st wd))
       = Some (missed_hits_sheet (default new_workbook st))).
Proof.
  split.
  - unfold save_war_to_excel. by intros ->.
  - intros Hne _ _. split; [|split; [|split; [|split; [|split]]]].
    + unfold save_war_to_excel. by destruct (wd_war_details wd).
    + rewrite save_war_to_excel_sheets by done.
      rewrite find_sheet_app, find_sheet_del_eq. simpl. by rewrite String.eqb_refl.
    + rewrite save_war_to_excel_sheets by done. apply last_snoc.
    + intros n Hn. rewrite save_war_to_excel_sheets by done.
      rewrite find_sheet_app, find_sheet_del_ne by done.
      destruct (find_sheet n (sheets_of st)); [done|]. simpl.
      assert (String.eqb (sheet_name_of (wd_war_id wd)) n = false) as ->
        by (apply String.eqb_neq; congruence).
      done.
    + unfold save_war_to_excel. by destruct (wd_war_details wd).
    + unfold save_war_to_excel. by destruct (wd_war_details wd).
Qed.

Lemma X11_save_then_read_witness :
  let wd := {| wd_war_id := "20240108T000000-000Z";
               wd_war_details :=
                 [sample_row "20240108T000000-000Z" "No" "Bob" "#B" 1 1 30 (CStr "No")];
               wd_is_ended := false |} in
  find_sheet "20240108T000000-000Z" (sheets_of (fst (save_war_to_excel marked_store wd)))
  = Some (wd_war_details wd)
  ∧ find_sheet "20240101T000000-000Z" (sheets_of (fst (save_war_to_excel marked_store wd)))
    = find_sheet "20240101T000000-000Z" (sheets_of marked_store)
  ∧ save_war_to_excel None {| wd_war_id := "20240108T000000-000Z"; wd_war_details := [];
                              wd_is_ended := false |} = (None, false).
Proof.
  intros wd.
  assert (wd_war_details wd ≠ []) as Hne by (unfold wd; simpl; discriminate).
  assert (stamp_names marked_store) as Hst by (repeat constructor).
  destruct (X11_save_then_read marked_store wd) as [_ H].
  destruct (H Hne eq_refl Hst) as (_ & H1 & _ & H2 & _).
  split; [exact H1|]. split; [apply H2; unfold wd; simpl; discriminate|].
  exact (proj1 (X11_save_then_read None
                  {| wd_war_id := "20240108T000000-000Z"; wd_war_details := [];
                     wd_is_ended := false |})
           eq_refl).
Defined.

(** X12: saving keeps the sheet names of the workbook distinct, and
    changes the number of war sheets by one for a war not stored before
    and not at all for a war that was. *)
Theorem X12_save_keeps_names_distinct st wd :
  NoDup (fst <$> sheets_of st) ->
  wd_war_details wd ≠ [] ->
  NoDup (fst <$> sheets_of (fst (save_war_to_excel st wd)))
  ∧ length (sheets_of (fst (save_war_to_excel st wd)))
    = if decide (sheet_name_of (wd_war_id wd) ∈ fst <$> sheets_of st)
      then length (sheets_of st)
      else S (length (sheets_of st)).
Proof.
  intros Hnd Hne. rewrite save_war_to_excel_sheets by done.
  set (name := sheet_name_of (wd_war_id wd)). split.
  - rewrite fmap_app, del_sheet_names. simpl. apply NoDup_app. split; [|split].
    + by apply NoDup_filter.
    + intros n Hn ->%list_elem_of_singleton.
      apply list_elem_of_filter in Hn as [? _]. done.
    + apply NoDup_singleton.
  - rewrite length_app. simpl.
    destruct (decide (name ∈ fst <$> sheets_of st)) as [Hin|Hin].
    + rewrite <-(length_fmap fst (del_sheet _ _)), del_sheet_names.
      rewrite <-(length_fmap fst (sheets_of st)).
      pose proof (length_filter_ne_NoDup name _ Hnd Hin). lia.
    + rewrite del_sheet_absent by done. lia.
Qed.

Lemma X12_save_keeps_names_distinct_witness :
  let wd := {| wd_war_id := "W1";
               wd_war_details := [sample_row "W1" "No" "Bob" "#B" 1 1 30 (CStr "No")];
               wd_is_ended := false |} in
  NoDup (fst <$> sheets_of (fst (save_war_to_excel scenario_C wd)))
  ∧ length (sheets_of (fst (save_war_to_excel scenario_C wd))) = 3%nat.
Proof.
  intros wd.
  apply (X12_save_keeps_names_distinct scenario_C wd).
  - simpl. repeat (constructor; [rewrite ?elem_of_cons, elem_of_nil; intros H; repeat destruct H as [H|H]; done|]). constructor.
  - unfold wd. simpl. discriminate.
Defined.

Lemma del_sheet_after_save name l df :
  del_sheet name (del_sheet name l ++ [(name, df)]) = del_sheet name l.
Proof.
  unfold del_sheet. rewrite filter_app, (filter_cons _ (name, df)). simpl.
  rewrite decide_False by tauto. rewrite app_nil_r. exact (del_sheet_idem name l).
Qed.

(** X13: saving the same records twice leaves the workbook that saving
    them once leaves, for a sheet name that is a timestamp like those of
    the workbook. *)
Theorem X13_save_is_idempotent st wd :
  stamp_name (sheet_name_of (wd_war_id wd)) = true ->
  stamp_names st ->
  fst (save_war_to_excel (fst (save_war_to_excel st wd)) wd)
  = fst (save_war_to_excel st wd).
Proof.
  intros _ _.
  unfold save_war_to_excel. destruct (wd_war_details wd) as [|r rows] eqn:E; [done|].
  destruct st as [book|]; cbn -[del_sheet]; by rewrite del_sheet_after_save.
Qed.

Lemma X13_save_is_idempotent_witness :
  let wd := {| wd_war_id := "20240108T000000-000Z";
               wd_war_details :=
                 [sample_row "20240108T000000-000Z" "No" "Bob" "#B" 1 1 30 (CStr "No")];
               wd_is_ended := false |} in
  (fst <$> sheets_of (fst (save_war_to_excel marked_store wd)))
  = ["20240101T000000-000Z"; "20240108T000000-000Z"]
  ∧ fst (save_war_to_excel (fst (save_war_to_excel marked_store wd)) wd)
    = fst (save_war_to_excel marked_store wd).
Proof.
  intros wd. split; [reflexivity|].
  apply (X13_save_is_idempotent marked_store wd); [reflexivity|repeat constructor].
Defined.

(** ** The missed-hits view *)

Lemma elem_of_complete_rows o s r :
  r ∈ complete_rows o s <->
  sheet_read_raises o (fst s) = false
  ∧ r ∈ snd s
  ∧ ∃ r0 rest, snd s = r0 :: rest ∧ War_Complete r0 = "Yes".
Proof.
  unfold complete_rows. destruct (sheet_read_raises o s.1).
  - rewrite elem_of_nil. split; [done|]. by intros [? _].
  - destruct (snd s) as [|r0 rest] eqn:E.
    + rewrite !elem_of_nil. split; [done|]. by intros (_ & [] & _).
    + destruct (bool_decide_reflect (War_Complete r0 = "Yes")) as [Hc|Hc].
      * split; [|by intros (_ & ? & _)]. intros Hr. split; [done|].
        split; [done|]. by exists r0, rest.
      * rewrite elem_of_nil. split; [done|].
        intros (_ & _ & r1 & rest1 & [= <- <-] & ?). done.
Qed.

Lemma elem_of_all_missed o book e :
  e ∈ all_missed o book <->
  ∃ s r, s ∈ war_sheets book ∧ r ∈ complete_rows o s
         ∧ Is_Missed r = "Yes" ∧ e = missed_projection r.
Proof.
  unfold all_missed. rewrite list_elem_of_bind. split.
  - intros (s & He & Hs). apply list_elem_of_fmap in He as (r & -> & Hr).
    apply list_elem_of_filter in Hr as [? ?]. by exists s, r.
  - intros (s & r & Hs & Hr & Hm & ->). exists s. split; [|done].
    apply list_elem_of_fmap_2, list_elem_of_filter. done.
Qed.

(** X14: when some complete war has a missed row, the rebuilt MISSED_HITS
    sheet lists, once per row, the projections of exactly the rows with
    Is Missed = Yes (sentinels included) of the sheets that read and whose
    first row is complete; rows of wars in progress are left out, and the
    war sheets and the roster stay as they are. *)
Theorem X14_missed_view_rows o book :
  all_missed o book ≠ [] ->
  ∃ view,
    update_missed_hits_sheet o (Some book)
    = Some {| roster_sheet := roster_sheet book;
              missed_hits_sheet := Some view;
              war_sheets := war_sheets book |}
    ∧ view ≡ₚ all_missed o book
    ∧ ∀ e, e ∈ view <->
           ∃ s r, s ∈ war_sheets book
                  ∧ sheet_read_raises o (fst s) = false
                  ∧ (∃ r0 rest, snd s = r0 :: rest ∧ War_Complete r0 = "Yes")
                  ∧ r ∈ snd s ∧ Is_Missed r = "Yes" ∧ e = missed_projection r.
Proof.
  intros Hne. exists (sort_values missed_le (all_missed o book)).
  split; [|split].
  - unfold update_missed_hits_sheet. by destruct (all_missed o book).
  - apply sort_values_Permutation.
  - intros e. rewrite elem_of_sort_values, elem_of_all_missed. split.
    + intros (s & r & Hs & Hr & Hm & ->).
      apply elem_of_complete_rows in Hr as (? & ? & ?). by exists s, r.
    + intros (s & r & Hs & Ho & Hc & Hr & Hm & ->). exists s, r.
      split; [done|]. split; [|done]. by apply elem_of_complete_rows.
Qed.

Lemma X14_missed_view_rows_witness :
  ∃ view,
    update_missed_hits_sheet quiet_io (Some two_players_book)
    = Some {| roster_sheet := None;
              missed_hits_sheet := Some view;
              war_sheets := war_sheets two_players_book |}
    ∧ (fun e => (mi_Player_Tag e, mi_Attack_Number e)) <$> view = [("#B", 0)].
Proof.
  destruct (X14_missed_view_rows quiet_io two_players_book) as (view & Hv & _).
  { vm_compute. discriminate. }
  exists view. split; [exact Hv|].
  vm_compute in Hv. injection Hv as <-. reflexivity.
Defined.


Lemma Sorted_weaken {A} (R R' : A -> A -> Prop) l :
  (∀ a b, R a b -> R' a b) -> Sorted R l -> Sorted R' l.
Proof.
  intros HR. induction 1 as [|x l Hs IH Hhd]; constructor; [done|].
  destruct Hhd; constructor. by apply HR.
Qed.





(** X16: when no sheet that reads and is complete has a row with
    Is Missed = Yes, [update_missed_hits_sheet] writes nothing: a
    MISSED_HITS sheet of an earlier run stays in the workbook as it was. *)
Theorem X16_missed_view_is_kept_without_misses o book :
  (∀ s r, s ∈ war_sheets book -> r ∈ complete_rows o s -> Is_Missed r ≠ "Yes") ->
  update_missed_hits_sheet o (Some book) = Some book.
Proof.
  intros Hnone. unfold update_missed_hits_sheet.
  destruct (all_missed o book) as [|e l] eqn:E; [done|]. exfalso.
  assert (e ∈ all_missed o book) as He by (rewrite E; left).
  apply elem_of_all_missed in He as (s & r & Hs & Hr & Hm & _).
  by apply (Hnone s r).
Qed.

Lemma X16_missed_view_is_kept_without_misses_witness :
  let stale := [missed_projection (sample_row "W0" "Yes" "Old" "#O" 1 0 0 (CStr "No"))] in
  let book := {| roster_sheet := None;
                 missed_hits_sheet := Some stale;
                 war_sheets :=
                   [("W1", [sample_row "W1" "Yes" "Ann" "#A" 1 3 100 (CStr "No")])] |} in
  missed_hits_sheet <$> update_missed_hits_sheet quiet_io (Some book)
  = Some (Some stale).
Proof.
  intros stale book.
  rewrite (X16_missed_view_is_kept_without_misses quiet_io book); [reflexivity|].
  intros s r Hs Hr. apply list_elem_of_singleton in Hs as ->.
  apply list_elem_of_singleton in Hr as ->. discriminate.
Defined.

(** ** The roster *)

Lemma roster_scan_rows o sheets : ∀ m,
  foldl (roster_scan_sheet o) m sheets
  = foldl roster_visit m
      (sheets ≫= fun s => if sheet_read_raises o (fst s) then [] else snd s).
Proof.
  induction sheets as [|s sheets IH]; intros m; [done|].
  rewrite bind_cons, foldl_app. cbn [foldl]. rewrite IH.
  unfold roster_scan_sheet. by destruct (sheet_read_raises o s.1).
Qed.

Lemma roster_visit_lookup_ne m r tag :
  Player_Tag r ≠ tag -> roster_visit m r !! tag = m !! tag.
Proof.
  intros Hne. unfold roster_visit. rewrite lookup_alter_ne by done.
  destruct (0 <? Attack_Number r).
  - rewrite lookup_alter_ne by done.
    destruct (m !! Player_Tag r); [done|]. by rewrite lookup_insert_ne.
  - destruct (m !! Player_Tag r); [done|]. by rewrite lookup_insert_ne.
Qed.

(** The entry of the row's player after the row is visited. *)
Lemma roster_visit_lookup_eq m r :
  ∃ e, roster_visit m r !! Player_Tag r = Some e
       ∧ ro_Player_Tag e = ro_Player_Tag (default (first_entry r) (m !! Player_Tag r))
       ∧ ro_Player_Name e = ro_Player_Name (default (first_entry r) (m !! Player_Tag r))
       ∧ ro_Last_Seen_TH e
         = Z.max (ro_Last_Seen_TH (default (first_entry r) (m !! Player_Tag r)))
                 (Town_Hall r).
Proof.
  unfold roster_visit. rewrite lookup_alter_eq.
  destruct (m !! Player_Tag r) as [e0|] eqn:Hm; simpl;
    destruct (0 <? Attack_Number r);
    rewrite ?lookup_alter_eq, ?Hm, ?lookup_insert_eq; simpl;
    eexists; (split; [reflexivity|]);
    destruct (Z.ltb_spec (ro_Last_Seen_TH e0) (Town_Hall r)) ||
    destruct (Z.ltb_spec (Town_Hall r) (Town_Hall r)); simpl; repeat split; lia.
Qed.

Lemma roster_inv_step m rows r :
  roster_inv m rows -> roster_inv (roster_visit m r) (rows ++ [r]).
Proof.
  intros Hinv tag. specialize (Hinv tag).
  destruct (decide (Player_Tag r = tag)) as [<-|Hne].
  - destruct (roster_visit_lookup_eq m r) as (e & -> & Htag & Hname & Hth).
    destruct (m !! Player_Tag r) as [e0|] eqn:Hm; simpl in *.
    + destruct Hinv as (Ht0 & (r1 & Hr1 & Ht1 & Hth1) & Hmax & (r2 & Hhead & Hn2)).
      split; [congruence|]. split; [|split].
      * destruct (Z.max_spec (ro_Last_Seen_TH e0) (Town_Hall r)) as [[? Hx]|[? Hx]].
        -- exists r. rewrite elem_of_app, list_elem_of_singleton. split; [by right|].
           split; [done|]. lia.
        -- exists r1. rewrite elem_of_app. split; [by left|]. split; [done|]. lia.
      * intros r' [Hr'| ->%list_elem_of_singleton]%elem_of_app Ht'.
        -- specialize (Hmax r' Hr' Ht'). lia.
        -- lia.
      * exists r2. rewrite filter_app, head_app, Hhead. split; [done|]. congruence.
    + split; [done|]. split; [|split].
      * exists r. rewrite elem_of_app, list_elem_of_singleton. split; [by right|].
        split; [done|]. lia.
      * intros r' [Hr'| ->%list_elem_of_singleton]%elem_of_app Ht'.
        -- by destruct (Hinv r' Hr').
        -- lia.
      * exists r. split; [|done]. rewrite filter_app.
        rewrite (not_elem_of_filter_nil _ rows) by (intros x Hx; by apply Hinv).
        simpl. rewrite filter_cons. by rewrite decide_True.
  - rewrite roster_visit_lookup_ne by done.
    destruct (m !! tag) as [e0|].
    + destruct Hinv as (Ht0 & (r1 & Hr1 & Ht1 & Hth1) & Hmax & (r2 & Hhead & Hn2)).
      split; [done|]. split; [|split].
      * exists r1. rewrite elem_of_app. split; [by left|]. done.
      * intros r' [Hr'| ->%list_elem_of_singleton]%elem_of_app Ht'; [|done].
        by apply Hmax.
      * exists r2. rewrite filter_app, head_app, Hhead. done.
    + intros r' [Hr'| ->%list_elem_of_singleton]%elem_of_app; [|done].
      by apply Hinv.
Qed.

Lemma roster_inv_rows rows : roster_inv (foldl roster_visit ∅ rows) rows.
Proof.
  induction rows as [|r rows IH] using rev_ind.
  - intros tag. cbn [foldl]. rewrite lookup_empty. by intros r ?%elem_of_nil.
  - rewrite foldl_snoc. by apply roster_inv_step.
Qed.

Lemma roster_inv_scan o book : roster_inv (roster_scan o book) (readable_rows o book).
Proof. unfold roster_scan. rewrite roster_scan_rows. apply roster_inv_rows. Qed.

Lemma fmap_ext_in {A B} (f g : A -> B) (l : list A) :
  (∀ x, x ∈ l -> f x = g x) -> f <$> l = g <$> l.
Proof.
  induction l as [|x l IH]; intros Hfg; [done|].
  rewrite !fmap_cons, (Hfg x) by left. f_equal. apply IH.
  intros y Hy. apply Hfg. by right.
Qed.

(** The dict lists one entry per tag, in the order in which the tags are
    first seen. *)
Lemma roster_values_tags o book :
  ro_Player_Tag <$> roster_values o book
  = drop_duplicates (Player_Tag <$> readable_rows o book).
Proof.
  unfold roster_values.
  assert (∀ tag, tag ∈ drop_duplicates (Player_Tag <$> readable_rows o book) ->
            ∃ e, roster_scan o book !! tag = Some e ∧ ro_Player_Tag e = tag) as Hall.
  { intros tag (r & -> & Hr)%elem_of_drop_duplicates%list_elem_of_fmap.
    pose proof (roster_inv_scan o book (Player_Tag r)) as Hinv.
    destruct (roster_scan o book !! Player_Tag r) as [e|].
    - exists e. by destruct Hinv as [? _].
    - by destruct (Hinv r Hr). }
  induction (drop_duplicates (Player_Tag <$> readable_rows o book)) as [|tag l IH];
    [done|].
  destruct (Hall tag) as (e & He & Htag); [left|].
  cbn [omap list_omap]. rewrite He. rewrite fmap_cons, Htag. f_equal.
  apply IH. intros tag' Hin. apply Hall. by right.
Qed.

Lemma elem_of_roster_values o book e :
  e ∈ roster_values o book <-> roster_scan o book !! ro_Player_Tag e = Some e.
Proof.
  unfold roster_values. rewrite list_elem_of_omap. split.
  - intros (tag & _ & Hm).
    pose proof (roster_inv_scan o book tag) as Hinv. rewrite Hm in Hinv.
    destruct Hinv as [-> _]. done.
  - intros Hm. exists (ro_Player_Tag e). split; [|done].
    pose proof (roster_inv_scan o book (ro_Player_Tag e)) as Hinv.
    rewrite Hm in Hinv. destruct Hinv as (_ & (r & Hr & Ht & _) & _).
    apply elem_of_drop_duplicates, list_elem_of_fmap. by exists r.
Qed.

Lemma elem_of_roster_view o book e :
  e ∈ roster_view o book <->
  ∃ e0, roster_scan o book !! ro_Player_Tag e = Some e0
        ∧ e = set_total_wars (Z.of_nat (length (war_sheets book))) e0.
Proof.
  unfold roster_view. rewrite elem_of_sort_values, list_elem_of_fmap. split.
  - intros (e0 & -> & He0). apply elem_of_roster_values in He0. by exists e0.
  - intros (e0 & Hm & ->). exists e0. split; [done|].
    apply elem_of_roster_values. simpl in Hm.
    pose proof (roster_inv_scan o book (ro_Player_Tag e0)) as Hinv.
    by rewrite Hm in Hinv |- *.
Qed.

Lemma NoDup_roster_tags o book : NoDup (ro_Player_Tag <$> roster_view o book).
Proof.
  unfold roster_view. rewrite sort_values_Permutation, <-list_fmap_compose.
  change (ro_Player_Tag ∘ set_total_wars (Z.of_nat (length (war_sheets book))))
    with ro_Player_Tag.
  rewrite roster_values_tags. apply NoDup_drop_duplicates.
Qed.

Lemma elem_of_roster_tags o book tag :
  tag ∈ ro_Player_Tag <$> roster_view o book <->
  ∃ r, r ∈ readable_rows o book ∧ Player_Tag r = tag.
Proof.
  rewrite list_elem_of_fmap. split.
  - intros (e & -> & He). apply elem_of_roster_view in He as (e0 & Hm & ->).
    simpl in *.
    pose proof (roster_inv_scan o book (ro_Player_Tag e0)) as Hinv.
    rewrite Hm in Hinv. destruct Hinv as (_ & (r & Hr & Ht & _) & _).
    by exists r.
  - intros (r & Hr & <-).
    pose proof (roster_inv_scan o book (Player_Tag r)) as Hinv.
    destruct (roster_scan o book !! Player_Tag r) as [e0|] eqn:Hm.
    + destruct Hinv as (Ht & _).
      exists (set_total_wars (Z.of_nat (length (war_sheets book))) e0).
      split; [done|]. apply elem_of_roster_view. exists e0. simpl.
      by rewrite Ht.
    + by destruct (Hinv r Hr).
Qed.

(** X17: the roster has one entry per player tag, and the tags it lists
    are those of the rows of the war sheets that read. *)
Theorem X17_roster_tags o book :
  NoDup (ro_Player_Tag <$> roster_view o book)
  ∧ ∀ tag, tag ∈ ro_Player_Tag <$> roster_view o book <->
           ∃ r, r ∈ readable_rows o book ∧ Player_Tag r = tag.
Proof. split; [apply NoDup_roster_tags | apply elem_of_roster_tags]. Qed.

(** X18: the town hall level the roster shows for a player is the
    highest one among that player's rows, and the name it shows is the
    name on the first of those rows in workbook order: a later name is
    never taken over. *)
Theorem X18_roster_town_hall_and_name o book e :
  e ∈ roster_view o book ->
  (∃ r, r ∈ readable_rows o book ∧ Player_Tag r = ro_Player_Tag e
        ∧ Town_Hall r = ro_Last_Seen_TH e)
  ∧ (∀ r, r ∈ readable_rows o book -> Player_Tag r = ro_Player_Tag e ->
          Town_Hall r <= ro_Last_Seen_TH e)
  ∧ ∃ r, head (filter (fun r => Player_Tag r = ro_Player_Tag e) (readable_rows o book))
         = Some r
         ∧ ro_Player_Name e = Player_Name r.
Proof.
  intros (e0 & Hm & ->)%elem_of_roster_view. simpl in *.
  pose proof (roster_inv_scan o book (ro_Player_Tag e0)) as Hinv.
  rewrite Hm in Hinv. by destruct Hinv as (_ & ? & ? & ?).
Qed.

Lemma X18_roster_town_hall_and_name_witness :
  let e := {| ro_Player_Tag := "#A"; ro_Player_Name := "Ann"; ro_Last_Seen_TH := 13;
              ro_Total_Wars := 2; ro_Wars_Participated := 2 |} in
  e ∈ roster_view quiet_io renamed_book
  ∧ ∃ r, head (filter (fun r => Player_Tag r = "#A") (readable_rows quiet_io renamed_book))
         = Some r
         ∧ Player_Name r = "Ann".
Proof.
  intros e.
  assert (e ∈ roster_view quiet_io renamed_book) as He
    by (apply list_elem_of_In; vm_compute; left; reflexivity).
  split; [exact He|].
  destruct (X18_roster_town_hall_and_name quiet_io renamed_book e He)
    as (_ & _ & r & Hr & Hn).
  exists r. split; [exact Hr|]. symmetry. exact Hn.
Defined.



Lemma roster_view_nil o book : roster_view o book = [] <-> readable_rows o book = [].
Proof.
  split.
  - intros Hnil. destruct (readable_rows o book) as [|r rows] eqn:E; [done|].
    exfalso.
    assert (Player_Tag r ∈ ro_Player_Tag <$> roster_view o book) as Hin.
    { apply elem_of_roster_tags. exists r. rewrite E. split; [left|done]. }
    rewrite Hnil in Hin. by apply elem_of_nil in Hin.
  - intros Hnil. unfold roster_view, roster_values. by rewrite Hnil.
Qed.

(** X20: [update_roster_sheet] replaces the ROSTER sheet by the rebuilt
    roster and touches neither the war sheets nor the MISSED_HITS sheet;
    when no war sheet yields a row (none stored, or none that reads), the
    empty frame has no Player Name column to sort by and the call ends in
    an uncaught exception. *)
Theorem X20_roster_sheet_replaced o book :
  (readable_rows o book = [] -> update_roster_sheet o (Some book) = None)
  ∧ (readable_rows o book ≠ [] ->
     update_roster_sheet o (Some book)
     = Some (Some {| roster_sheet := Some (roster_view o book);
                     missed_hits_sheet := missed_hits_sheet book;
                     war_sheets := war_sheets book |})).
Proof.
  unfold update_roster_sheet. split.
  - intros Hnil%roster_view_nil. by rewrite Hnil.
  - intros Hne. destruct (roster_view o book) eqn:E; [|done].
    by apply roster_view_nil in E.
Qed.

Lemma X20_roster_sheet_replaced_witness :
  update_roster_sheet quiet_io (Some new_workbook) = None
  ∧ update_roster_sheet quiet_io (Some renamed_book)
    = Some (Some {| roster_sheet := Some (roster_view quiet_io renamed_book);
                    missed_hits_sheet := None;
                    war_sheets := war_sheets renamed_book |}).
Proof.
  split.
  - apply (proj1 (X20_roster_sheet_replaced quiet_io new_workbook)). reflexivity.
  - apply (proj2 (X20_roster_sheet_replaced quiet_io renamed_book)).
    vm_compute. discriminate.
Defined.

(** ** The war report *)

Lemma stars_ge_total a b : stars_ge a b = false -> stars_ge b a = true.
Proof. unfold stars_ge. rewrite Z.leb_gt, Z.leb_le. lia. Qed.

Lemma nlargest_stars_sorted df :
  StronglySorted (fun a b => Stars b <= Stars a) (sort_values stars_ge df).
Proof.
  apply Sorted_StronglySorted; [intros a b c; lia|].
  apply (Sorted_weaken (fun a b => stars_ge a b = true)).
  - intros a b. unfold stars_ge. by rewrite Z.leb_le.
  - apply (sort_values_Sorted stars_ge stars_ge_total).
Qed.

Lemma send_discord_war_report_Some hook wd w rep :
  send_discord_war_report hook wd w = Some rep ->
  wd_war_details wd ≠ []
  ∧ rep = {| wr_result := report_result (side_stars (clan w)) (side_stars (opponent w));
             wr_color := report_color (side_stars (clan w)) (side_stars (opponent w));
             wr_clan_name := side_name (clan w);
             wr_opponent_name := side_name (opponent w);
             wr_top_performers :=
               (fun r => (Player_Name r, Stars r, Destruction r))
                 <$> nlargest_stars (filter (fun r => 0 < Attack_Number r) (wd_war_details wd));
             wr_missed_count :=
               Z.of_nat (length (filter (fun r => Is_Missed r = "Yes")
                                   (filter (fun r => 0 < Attack_Number r) (wd_war_details wd)))) |}.
Proof.
  unfold send_discord_war_report. destruct hook as [url|]; [|done].
  destruct (String.eqb url ""); [done|].
  destruct (wd_war_details wd) eqn:E; [done|]. intros [= <-]. done.
Qed.

(** X21: the top performers of the report are at most three rows of
    attacks made, listed by stars in descending order, and no attack left
    out has more stars than one that is listed. *)
Theorem X21_top_performers hook wd w rep :
  send_discord_war_report hook wd w = Some rep ->
  ∃ top rest,
    wr_top_performers rep = (fun r => (Player_Name r, Stars r, Destruction r)) <$> top
    ∧ filter (fun r => 0 < Attack_Number r) (wd_war_details wd) ≡ₚ top ++ rest
    ∧ length top = Nat.min 3 (length (filter (fun r => 0 < Attack_Number r) (wd_war_details wd)))
    ∧ StronglySorted (fun a b => Stars b <= Stars a) top
    ∧ ∀ a b, a ∈ top -> b ∈ rest -> Stars b <= Stars a.
Proof.
  intros [_ ->]%send_discord_war_report_Some.
  set (df := filter _ (wd_war_details wd)).
  exists (take 3 (sort_values stars_ge df)), (drop 3 (sort_values stars_ge df)).
  pose proof (nlargest_stars_sorted df) as Hs.
  rewrite <-(take_drop 3 (sort_values stars_ge df)) in Hs.
  split; [done|]. split; [by rewrite take_drop, sort_values_Permutation|].
  split.
  { rewrite length_take. by rewrite (Permutation_length (sort_values_Permutation stars_ge df)). }
  split.
  - by apply StronglySorted_app_1_l in Hs.
  - intros a b Ha Hb. by apply (StronglySorted_app_1_elem_of _ _ _ _ _ Hs).
Qed.

Lemma X21_top_performers_witness :
  ∃ rep,
    send_discord_war_report (Some "https://hook") report_data idle_war = Some rep
    ∧ wr_top_performers rep = [("Cid", 3, 100%Q); ("Dan", 3, 90%Q); ("Cid", 2, 80%Q)]
    ∧ ∃ top rest,
        wr_top_performers rep = (fun r => (Player_Name r, Stars r, Destruction r)) <$> top
        ∧ filter (fun r => 0 < Attack_Number r) (wd_war_details report_data) ≡ₚ top ++ rest
        ∧ length top = 3%nat.
Proof.
  destruct (send_discord_war_report (Some "https://hook") report_data idle_war)
    as [rep|] eqn:E; [|vm_compute in E; discriminate].
  exists rep. split; [reflexivity|]. split.
  - vm_compute in E. injection E as <-. reflexivity.
  - destruct (X21_top_performers _ _ _ _ E) as (top & rest & H1 & H2 & H3 & _).
    exists top, rest. split; [exact H1|]. split; [exact H2|]. exact H3.
Defined.

Lemma length_filter_imap {A B} (P : B -> Prop) `{∀ x, Decision (P x)}
    (Q : A -> Prop) `{∀ x, Decision (Q x)} (l : list A) : ∀ (f : nat -> A -> B),
  (∀ i a, P (f i a) <-> Q a) ->
  length (filter P (imap f l)) = length (filter Q l).
Proof.
  induction l as [|a l IH]; intros f Hf; [done|].
  rewrite imap_cons, !filter_cons.
  assert (∀ i b, P ((f ∘ S) i b) <-> Q b) as Hf' by (intros i b; apply Hf).
  destruct (decide (P (f 0%nat a))) as [Hp|Hp], (decide (Q a)) as [Hq|Hq].
  - simpl. f_equal. by apply IH.
  - by apply Hf in Hp.
  - by apply (Hf 0%nat) in Hq.
  - by apply IH.
Qed.

Lemma yes_no_Yes' b : yes_no b = "Yes" <-> b = true.
Proof. by destruct b. Qed.

Lemma report_missed_member w war_id loot m :
  length (filter (fun r => Is_Missed r = "Yes")
            (filter (fun r => 0 < Attack_Number r) (member_rows w war_id loot m)))
  = length (filter (fun a => zero_attack a = true) (default [] (m_attacks m))).
Proof.
  unfold member_rows. rewrite !filter_app, !length_app.
  assert (length (filter (fun r => Is_Missed r = "Yes")
            (filter (fun r => 0 < Attack_Number r)
               (match default [] (m_attacks m) with
                | [] => [sentinel_row w war_id m] | _ :: _ => [] end))) = 0%nat) as ->.
  { destruct (default [] (m_attacks m)); [|done].
    rewrite filter_cons_False; [done|]. simpl. lia. }
  rewrite Nat.add_0_r.
  rewrite (list_filter_filter _ _ _).
  apply length_filter_imap. intros i a. simpl.
  rewrite yes_no_Yes'. unfold zero_attack. split; [tauto|]. intros ?. split; [done|lia].
Qed.

(** X22: for the rows [process_war] builds, the missed count of the
    report is the number of attacks that were used for no star and no
    destruction; a member who did not attack at all is not counted. *)
Theorem X22_report_missed_count o st w preserve hook wd rep :
  process_war o st w preserve = Some wd ->
  send_discord_war_report hook wd w = Some rep ->
  wr_missed_count rep
  = Z.of_nat (length (filter (fun a => zero_attack a = true) (attacks_of w))).
Proof.
  intros Hp [_ ->]%send_discord_war_report_Some. simpl. f_equal.
  unfold process_war in Hp. destruct (war_truthy w); [|done].
  injection Hp as <-. simpl. unfold attacks_of.
  induction (members_of w) as [|m ms IH]; [done|].
  rewrite !bind_cons, !filter_app, !length_app, IH. f_equal.
  apply report_missed_member.
Qed.

Lemma X22_report_missed_count_witness :
  ∃ wd rep,
    process_war quiet_io None idle_war true = Some wd
    ∧ send_discord_war_report (Some "https://hook") wd idle_war = Some rep
    ∧ length (filter (fun r => Attack_Number r = 0) (wd_war_details wd)) = 1%nat
    ∧ wr_missed_count rep = 1.
Proof.
  destruct (process_war quiet_io None idle_war true) as [wd|] eqn:E1;
    [|vm_compute in E1; discriminate].
  destruct (send_discord_war_report (Some "https://hook") wd idle_war) as [rep|] eqn:E2.
  - exists wd, rep. split; [reflexivity|]. split; [exact E2|]. split.
    + vm_compute in E1. injection E1 as <-. reflexivity.
    + rewrite (X22_report_missed_count _ _ _ _ _ _ _ E1 E2). reflexivity.
  - vm_compute in E1. injection E1 as <-. vm_compute in E2. discriminate.
Defined.

(** X23: the title and the colour of the report are decided by the two
    star totals alone, a missing total counting as 0: more stars is a
    victory in green, fewer a defeat in red, and equal totals are a tie in
    amber whatever the destruction percentages are. *)
Theorem X23_report_result hook wd w rep :
  send_discord_war_report hook wd w = Some rep ->
  (side_stars (opponent w) < side_stars (clan w) ->
   wr_result rep = Victory ∧ wr_color rep = 0x10b981)
  ∧ (side_stars (clan w) < side_stars (opponent w) ->
     wr_result rep = Defeat ∧ wr_color rep = 0xef4444)
  ∧ (side_stars (clan w) = side_stars (opponent w) ->
     wr_result rep = Tie ∧ wr_color rep = 0xf59e0b).
Proof.
  intros [_ ->]%send_discord_war_report_Some. simpl.
  unfold report_result, report_color.
  destruct (Z.ltb_spec (side_stars (opponent w)) (side_stars (clan w)));
    destruct (Z.ltb_spec (side_stars (clan w)) (side_stars (opponent w)));
    repeat split; intros; try done; lia.
Qed.

Lemma X23_report_result_witness :
  ∃ rep,
    send_discord_war_report (Some "https://hook") report_data even_war = Some rep
    ∧ wr_result rep = Tie ∧ wr_color rep = 0xf59e0b.
Proof.
  destruct (send_discord_war_report (Some "https://hook") report_data even_war)
    as [rep|] eqn:E; [|vm_compute in E; discriminate].
  exists rep. split; [reflexivity|].
  apply (proj2 (proj2 (X23_report_result _ _ _ _ E))). reflexivity.
Defined.
